(** * space-booking: the booking-conflict checks and the per-client rate limiter

    A shallow embedding of
      - [internal/database/database.go]: [CheckLaunchpadAvailability] and
        [CheckDestinationSchedule];
      - [internal/server/routes.go]: [validateBooking], [CreateBookingHandler],
        [getVisitor] and [rateLimitMiddleware];
      - [internal/models/booking.go]: the [Booking] struct;
    together with the parts of Go's [time] package and of
    [golang.org/x/time/rate] that this code calls. *)

From Stdlib Require Import ZArith Lia List Bool Ascii String Sorted.
From Corelib Require PrimFloat FloatOps SpecFloat Uint63Axioms.
From stdpp Require Import base option list strings pretty gmap sorting.

Local Open Scope Z_scope.

(** ** Go's [time] package, as far as the repository uses it *)

(** A [time.Time] is an instant together with a [Location].  The instant is
    kept the way Go keeps it, as seconds since January 1, year 1 00:00:00 UTC
    plus nanoseconds; of the location only its offset east of UTC at that
    instant is kept, in seconds, which is all [Weekday] and [Format] read. *)
Record Time : Type := mkTime {
  t_sec : Z;
  t_nsec : Z;
  t_offset : Z
}.

(** The zero value of [time.Time]: January 1, year 1, 00:00:00 UTC. *)
Definition Time_zero : Time := mkTime 0 0 0.

Definition secondsPerMinute : Z := 60.
Definition secondsPerHour : Z := 60 * secondsPerMinute.
Definition secondsPerDay : Z := 24 * secondsPerHour.
Definition daysPer400Years : Z := 365 * 400 + 97.
Definition daysPer100Years : Z := 365 * 100 + 24.
Definition daysPer4Years : Z := 365 * 4 + 1.

(** [Weekday] is an [int] in Go with [Sunday = 0 ... Saturday = 6]. *)
Definition Sunday : Z := 0.
Definition Monday : Z := 1.
Definition Tuesday : Z := 2.
Definition Wednesday : Z := 3.
Definition Thursday : Z := 4.
Definition Friday : Z := 5.
Definition Saturday : Z := 6.

(** [t.IsZero()]: the instant is the zero instant, whatever the location. *)
Definition IsZero (t : Time) : bool :=
  (t_sec t =? 0) && (t_nsec t =? 0).

(** Seconds since the year-1 epoch on the wall clock of [t]'s location
    (Go's [t.abs()], counted from year 1 instead of the absolute zero year,
    which lies a whole number of 400-year cycles earlier). *)
Definition abs (t : Time) : Z := t_sec t + t_offset t.

(** Days since January 1, year 1 on [t]'s wall clock. *)
Definition absDays (t : Time) : Z := abs t / secondsPerDay.

(** [t.Weekday()]: January 1 of year 1 was a Monday. *)
Definition Weekday (t : Time) : Z :=
  ((abs t + Monday * secondsPerDay) mod (7 * secondsPerDay)) / secondsPerDay.

Definition isLeap (year : Z) : bool :=
  (year mod 4 =? 0) && (negb (year mod 100 =? 0) || (year mod 400 =? 0)).

(** [daysBefore[m]]: days in a non-leap year before month [m+1]. *)
Definition daysBefore (m : Z) : Z :=
  match m with
  | 0 => 0
  | 1 => 31
  | 2 => 31 + 28
  | 3 => 31 + 28 + 31
  | 4 => 31 + 28 + 31 + 30
  | 5 => 31 + 28 + 31 + 30 + 31
  | 6 => 31 + 28 + 31 + 30 + 31 + 30
  | 7 => 31 + 28 + 31 + 30 + 31 + 30 + 31
  | 8 => 31 + 28 + 31 + 30 + 31 + 30 + 31 + 31
  | 9 => 31 + 28 + 31 + 30 + 31 + 30 + 31 + 31 + 30
  | 10 => 31 + 28 + 31 + 30 + 31 + 30 + 31 + 31 + 30 + 31
  | 11 => 31 + 28 + 31 + 30 + 31 + 30 + 31 + 31 + 30 + 31 + 30
  | _ => 31 + 28 + 31 + 30 + 31 + 30 + 31 + 31 + 30 + 31 + 30 + 31
  end.

Definition daysIn (m year : Z) : Z :=
  if (m =? 2) && isLeap year then 29
  else daysBefore m - daysBefore (m - 1).

(** Go's [absDate]: the year and the zero-based day of the year of a day
    count, by cutting off 400-, 100-, 4- and 1-year cycles. *)
Definition absYearDay (days : Z) : Z * Z :=
  let d := days in
  let n := d / daysPer400Years in
  let y := 400 * n in
  let d := d - daysPer400Years * n in
  let n := d / daysPer100Years in
  let n := n - Z.shiftr n 2 in
  let y := y + 100 * n in
  let d := d - daysPer100Years * n in
  let n := d / daysPer4Years in
  let y := y + 4 * n in
  let d := d - daysPer4Years * n in
  let n := d / 365 in
  let n := n - Z.shiftr n 2 in
  let y := y + n in
  let d := d - 365 * n in
  (y + 1, d).

(** The rest of [absDate]: month and day of the month from the day of the
    year. *)
Definition monthDay (year yday : Z) : Z * Z :=
  let leapDay := isLeap year && (yday =? 31 + 29 - 1) in
  if leapDay then (2, 29)
  else
    let day := if isLeap year && (31 + 29 - 1 <? yday) then yday - 1 else yday in
    let month := day / 31 in
    let end_ := daysBefore (month + 1) in
    if end_ <=? day
    then (month + 2, day - end_ + 1)
    else (month + 1, day - daysBefore month + 1).

(** [t.Date()]: year, month and day on [t]'s own wall clock. *)
Definition Date_of (t : Time) : Z * Z * Z :=
  let '(year, yday) := absYearDay (absDays t) in
  let '(month, day) := monthDay year yday in
  (year, month, day).

(** Go's [daysSinceEpoch], counted from year 1. *)
Definition daysSinceEpoch (year : Z) : Z :=
  let y := year - 1 in
  let n := y / 400 in
  let y := y - 400 * n in
  let d := daysPer400Years * n in
  let n := y / 100 in
  let y := y - 100 * n in
  let d := d + daysPer100Years * n in
  let n := y / 4 in
  let y := y - 4 * n in
  let d := d + daysPer4Years * n in
  d + 365 * y.

(** [time.Date(year, month, day, hour, min, sec, nsec, time.UTC)] for
    in-range fields. *)
Definition Date (year month day hour min sec nsec : Z) : Time :=
  let d := daysSinceEpoch year in
  let d := d + daysBefore (month - 1) in
  let d := if isLeap year && (3 <=? month) then d + 1 else d in
  let d := d + (day - 1) in
  mkTime (d * secondsPerDay + hour * secondsPerHour + min * secondsPerMinute + sec)
         nsec 0.

(** *** Formatting with the layout ["2006-01-02"] *)

(** [appendInt]: decimal, zero-padded to [width], with a leading minus. *)
Definition appendInt (x : Z) (width : nat) : string :=
  let digits := pretty (Z.abs_N x) in
  let pad := String.string_of_list_ascii
               (replicate (width - String.length digits) "0"%char) in
  if x <? 0 then String "-" (pad +:+ digits) else pad +:+ digits.

(** [t.Format("2006-01-02")]. *)
Definition Format_date (t : Time) : string :=
  let '(year, month, day) := Date_of t in
  appendInt year 4 +:+ "-" +:+ appendInt month 2 +:+ "-" +:+ appendInt day 2.

(** *** Parsing with the layout [time.RFC3339] *)

Definition isDigit (c : ascii) : bool :=
  let n := Z.of_N (N_of_ascii c) in (48 <=? n) && (n <=? 57).

Fixpoint atoi_from (x : Z) (s : string) : option Z :=
  match s with
  | EmptyString => Some x
  | String c s' =>
      if isDigit c then atoi_from (x * 10 + (Z.of_N (N_of_ascii c) - 48)) s'
      else None
  end.

(** [parseUint]: an unsigned decimal number within [min..max]. *)
Definition parseUint (s : string) (min max : Z) : option Z :=
  x ← atoi_from 0 s;
  if (x <? min) || (max <? x) then None else Some x.

Definition charAt (s : string) (i : nat) (c : ascii) : bool :=
  match String.get i s with
  | Some c' => if Ascii.ascii_dec c' c then true else false
  | None => false
  end.

Fixpoint spanDigits (s : string) : string * string :=
  match s with
  | EmptyString => (EmptyString, EmptyString)
  | String c s' =>
      if isDigit c
      then let '(ds, rest) := spanDigits s' in (String c ds, rest)
      else (EmptyString, s)
  end.

Fixpoint scaleNanos (n : nat) (ns : Z) : Z :=
  match n with
  | O => ns
  | S n' => scaleNanos n' (ns * 10)
  end.

(** [parseNanoseconds] on the digits after the period: at most nine digits
    count, scaled to nanoseconds. *)
Definition parseNanoseconds (ds : string) : Z :=
  let ds := String.substring 0 9 ds in
  match atoi_from 0 ds with
  | Some ns => scaleNanos (9 - String.length ds) ns
  | None => 0
  end.

(** The fractional second, when one is there, and what follows it. *)
Definition parseFraction (s : string) : Z * string :=
  match s with
  | String "." (String c s') =>
      if isDigit c
      then let '(ds, rest) := spanDigits (String c s') in
           (parseNanoseconds ds, rest)
      else (0, s)
  | _ => (0, s)
  end.

(** [parseRFC3339]: the RFC 3339 grammar
    [2006-01-02T15:04:05[.fraction](Z|±07:00)] with every field range
    checked, which [Parse] tries first for this layout.  [None] stands for
    [ok = false]. *)
Definition parseRFC3339 (s : string) : option Time :=
  if (String.length s <? 19)%nat then None else
  year ← parseUint (String.substring 0 4 s) 0 9999;
  month ← parseUint (String.substring 5 2 s) 1 12;
  day ← parseUint (String.substring 8 2 s) 1 (daysIn month year);
  hour ← parseUint (String.substring 11 2 s) 0 23;
  min ← parseUint (String.substring 14 2 s) 0 59;
  sec ← parseUint (String.substring 17 2 s) 0 59;
  if negb (charAt s 4 "-" && charAt s 7 "-" && charAt s 10 "T" &&
           charAt s 13 ":" && charAt s 16 ":") then None else
  let s := String.substring 19 (String.length s - 19) s in
  let '(nsec, s) := parseFraction s in
  let t := Date year month day hour min sec nsec in
  if String.eqb s "Z" then Some t
  else if negb (String.length s =? 6)%nat then None else
  hr ← parseUint (String.substring 1 2 s) 0 23;
  mm ← parseUint (String.substring 4 2 s) 0 59;
  if negb ((charAt s 0 "-" || charAt s 0 "+") && charAt s 3 ":") then None else
  let zoneOffset := (hr * 60 + mm) * 60 in
  let zoneOffset := if charAt s 0 "-" then - zoneOffset else zoneOffset in
  Some (mkTime (t_sec t - zoneOffset) (t_nsec t) zoneOffset).

(** [isDigit(s, i)]. *)
Definition isDigitAt (s : string) (i : nat) : bool :=
  match String.get i s with
  | Some c => isDigit c
  | None => false
  end.

Definition digitValue (c : ascii) : Z := Z.of_N (N_of_ascii c) - 48.

(** [getnum(s, fixed)]: a number of one or two digits, of two when [fixed],
    and what follows it. *)
Definition getnum (s : string) (fixed : bool) : option (Z * string) :=
  if negb (isDigitAt s 0) then None
  else if negb (isDigitAt s 1) then
    if fixed then None
    else
      match s with
      | String c0 rest => Some (digitValue c0, rest)
      | EmptyString => None
      end
  else
    match s with
    | String c0 (String c1 rest) => Some (digitValue c0 * 10 + digitValue c1, rest)
    | _ => None
    end.

(** [skip(value, prefix)] for a prefix of one character that is no space. *)
Definition skip (value : string) (prefix : ascii) : option string :=
  match value with
  | String c rest => if Ascii.eqb c prefix then Some rest else None
  | EmptyString => None
  end.

Definition commaOrPeriod (c : ascii) : bool :=
  Ascii.eqb c "." || Ascii.eqb c ",".

(** The fractional second that the general parser takes after the seconds
    where the layout has none: a period or a comma, and digits. *)
Definition parseFractionalSecond (value : string) : Z * string :=
  match value with
  | String c0 (String c1 rest) =>
      if commaOrPeriod c0 && isDigit c1
      then let '(ds, rest) := spanDigits (String c1 rest) in
           (parseNanoseconds ds, rest)
      else (0, value)
  | _ => (0, value)
  end.

(** The layout element [Z07:00] in the general parser: whether the zone is
    [UTC] (a [Z]), the offset in seconds ([-1] when none was read), and what
    follows.  An offset of 24 hours or of 60 minutes is let through. *)
Definition parseZone (value : string) : option (bool * Z * string) :=
  match value with
  | String "Z" rest => Some (true, -1, rest)
  | _ =>
      if (String.length value <? 6)%nat then None else
      if negb (charAt value 3 ":") then None else
      let sign := String.substring 0 1 value in
      let hour := String.substring 1 2 value in
      let min := String.substring 4 2 value in
      let seconds := "00"%string in
      let value := String.substring 6 (String.length value - 6) value in
      '(hr, _) ← getnum hour true;
      '(mm, _) ← getnum min true;
      '(ss, _) ← getnum seconds true;
      if (24 <? hr) || (60 <? mm) || (60 <? ss) then None else
      let zoneOffset := (hr * 60 + mm) * 60 + ss in
      if String.eqb sign "+" then Some (false, zoneOffset, value)
      else if String.eqb sign "-" then Some (false, - zoneOffset, value)
      else None
  end.

(** The general [parse] on the layout [time.RFC3339], element by element:
    [2006], [01], [02], [15], [04], [05] and [Z07:00], with the characters
    between them.  The hour may have one digit, the fraction may follow a
    comma, and the day of the month is checked at the end. *)
Definition parse_RFC3339 (value : string) : option Time :=
  if (String.length value <? 4)%nat || negb (isDigitAt value 0) then None else
  year ← atoi_from 0 (String.substring 0 4 value);
  let value := String.substring 4 (String.length value - 4) value in
  value ← skip value "-";
  '(month, value) ← getnum value true;
  if (month <=? 0) || (12 <? month) then None else
  value ← skip value "-";
  '(day, value) ← getnum value true;
  value ← skip value "T";
  '(hour, value) ← getnum value false;
  if (hour <? 0) || (24 <=? hour) then None else
  value ← skip value ":";
  '(min, value) ← getnum value true;
  if (min <? 0) || (60 <=? min) then None else
  value ← skip value ":";
  '(sec, value) ← getnum value true;
  if (sec <? 0) || (60 <=? sec) then None else
  let '(nsec, value) := parseFractionalSecond value in
  zone ← parseZone value;
  let '(z, zoneOffset, value) := zone : bool * Z * string in
  if negb (String.eqb value "") then None else
  if (day <? 1) || (daysIn month year <? day) then None else
  let t := Date year month day hour min sec nsec in
  if z then Some t
  else if negb (zoneOffset =? -1)
  then Some (mkTime (t_sec t - zoneOffset) (t_nsec t) zoneOffset)
  else Some t.

(** [time.Parse(time.RFC3339, s)]: the RFC 3339 grammar first, and the
    general parser on what that does not take.  [None] stands for a parse
    error. *)
Definition time_Parse_RFC3339 (s : string) : option Time :=
  match parseRFC3339 s with
  | Some t => Some t
  | None => parse_RFC3339 s
  end.

(** ** The data model *)

(** [models.Booking]. *)
Record Booking : Type := mkBooking {
  ID : Z;
  FirstName : string;
  LastName : string;
  Gender : string;
  Birthday : Time;
  LaunchpadID : string;
  DestinationID : Z;
  LaunchDate : Time
}.

(** One element of the [launches] slice that [CheckLaunchpadAvailability]
    decodes the feed into. *)
Record Launch : Type := mkLaunch {
  Launchpad : string;
  Name : string;
  DateLocal : string;
  Launch_ID : string
}.

(** A Go [error] value, by its message. *)
Inductive error : Type :=
| errorString (msg : string).

Definition fmt_Errorf (msg : string) : error := errorString msg.

(** ** The outside world and the calls made to it *)

(** What the launch feed answers: [http.Get] fails, or [io.ReadAll] of the
    body fails, or [json.Unmarshal] of the body into [launches] fails, or
    the launches are decoded. *)
Inductive FeedResponse : Type :=
| GetFailed (err : error)
| ReadAllFailed (err : error)
| UnmarshalFailed (err : error)
| Decoded (launches : list Launch).

(** What [SELECT id FROM destinations ORDER BY id] answers: the query
    fails, or a [rows.Scan] fails, or [rows.Err()] reports an error once
    the rows are read, or all identifiers are read. *)
Inductive RowsResult : Type :=
| QueryFailed (err : error)
| ScanFailed (err : error)
| RowsErr (err : error)
| Rows (ids : list Z).

Record World : Type := mkWorld {
  spacex_feed : FeedResponse;
  destinations_rows : RowsResult;
  bookings_insert : Booking → error + Z
}.

(** The calls that leave the process. *)
Inductive Call : Type :=
| CallHttpGet
| CallQueryDestinations
| CallInsertBooking (booking : Booking).

(** A run ends by returning or by a run-time panic. *)
Inductive Run (A : Type) : Type :=
| Done (a : A)
| Panic.
Arguments Done {A} a.
Arguments Panic {A}.

(** Code that reads the world: its result and the calls it made, in order. *)
Definition IO (A : Type) : Type := World → Run A * list Call.

Definition IO_ret {A : Type} (a : A) : IO A := λ _, (Done a, []).

Definition IO_bind {A B : Type} (k : A → IO B) (m : IO A) : IO B :=
  λ w, match m w with
       | (Done a, calls) => let '(r, calls') := k a w in (r, calls ++ calls')
       | (Panic, calls) => (Panic, calls)
       end.

#[global] Instance IO_mret : MRet IO := @IO_ret.
#[global] Instance IO_mbind : MBind IO := @IO_bind.

Definition http_Get : IO FeedResponse :=
  λ w, (Done (spacex_feed w), [CallHttpGet]).

Definition db_Query_destinations : IO RowsResult :=
  λ w, (Done (destinations_rows w), [CallQueryDestinations]).

Definition db_QueryRow_insert (booking : Booking) : IO (error + Z) :=
  λ w, (Done (bookings_insert w booking), [CallInsertBooking booking]).

(** [s[i]] on a slice: a run-time panic when [i] is out of range. *)
Definition index_slice {A : Type} (s : list A) (i : Z) : IO A :=
  λ _, match (if 0 <=? i then s !! Z.to_nat i else None) with
       | Some x => (Done x, [])
       | None => (Panic, [])
       end.

(** ** [internal/database/database.go] *)

(** The loop [for _, launch := range launches] of
    [CheckLaunchpadAvailability]. *)
Fixpoint scanLaunches (launchpadID : string) (launchDate : Time)
    (launches : list Launch) : bool * option error :=
  match launches with
  | [] => (true, None)
  | launch :: rest =>
      match time_Parse_RFC3339 (DateLocal launch) with
      | None => scanLaunches launchpadID launchDate rest
      | Some dateLocal =>
          if String.eqb (Launchpad launch) launchpadID &&
             String.eqb (Format_date dateLocal) (Format_date launchDate)
          then (false, None)
          else scanLaunches launchpadID launchDate rest
      end
  end.

Definition CheckLaunchpadAvailability (launchpadID : string) (launchDate : Time)
    : IO (bool * option error) :=
  resp ← http_Get;
  match resp with
  | GetFailed err => mret (false, Some err)
  | ReadAllFailed err => mret (false, Some err)
  | UnmarshalFailed err => mret (false, Some err)
  | Decoded launches => mret (scanLaunches launchpadID launchDate launches)
  end.

(** The [weekday] and [index] expressions of [CheckDestinationSchedule]. *)
Definition rotationWeekday (launchDate : Time) : Z :=
  Z.rem (Weekday launchDate + 6) 7.

Definition rotationIndex (launchDate : Time) (destinationIDs : list Z) : Z :=
  Z.rem (rotationWeekday launchDate) (Z.of_nat (length destinationIDs)).

Definition CheckDestinationSchedule (destinationID : Z) (launchpadID : string)
    (launchDate : Time) : IO (bool * option error) :=
  rows ← db_Query_destinations;
  match rows with
  | QueryFailed err => mret (false, Some err)
  | ScanFailed err => mret (false, Some err)
  | RowsErr err => mret (false, Some err)
  | Rows destinationIDs =>
      if (length destinationIDs =? 0)%nat
      then mret (false, Some (fmt_Errorf "no destinations available"))
      else
        let weekday := Z.rem (Weekday launchDate + 6) 7 in
        let index := Z.rem weekday (Z.of_nat (length destinationIDs)) in
        expectedDestinationID ← index_slice destinationIDs index;
        if negb (destinationID =? expectedDestinationID)
        then mret (false, None)
        else mret (true, None)
  end.

(** ** [internal/server/routes.go]: validation and the booking handler *)

Definition validateBooking (booking : Booking) : IO (bool * option error) :=
  let launchDate := LaunchDate booking in
  let birthday := Birthday booking in
  if IsZero launchDate || IsZero birthday
  then mret (false, Some (fmt_Errorf "launch date and birthday must be provided"))
  else
    '(isAvailable, err) ← CheckLaunchpadAvailability (LaunchpadID booking) launchDate;
    match err with
    | Some err => mret (false, Some err)
    | None =>
        if negb isAvailable then mret (false, None)
        else
          '(isDestinationValid, err) ←
            CheckDestinationSchedule (DestinationID booking) (LaunchpadID booking)
                                     launchDate;
          match err with
          | Some err => mret (false, Some err)
          | None =>
              if negb isDestinationValid then mret (false, None)
              else mret (true, None)
          end
    end.

(** The outcomes of the [Validate] contract. *)
Inductive Reason : Type :=
| MissingFields
| LaunchSiteConflict
| DestinationRotationMismatch
| UpstreamError.

Inductive Outcome : Type :=
| Accepted
| Rejected (reason : Reason).

(** [validateBooking] with every [return] labelled by the outcome of the
    contract it stands for: Go's [(false, nil)] is returned for a site
    conflict and for a rotation mismatch alike, and the error value for
    missing fields and for an upstream failure alike. *)
Definition Validate (booking : Booking) : IO Outcome :=
  let launchDate := LaunchDate booking in
  let birthday := Birthday booking in
  if IsZero launchDate || IsZero birthday
  then mret (Rejected MissingFields)
  else
    '(isAvailable, err) ← CheckLaunchpadAvailability (LaunchpadID booking) launchDate;
    match err with
    | Some err => mret (Rejected UpstreamError)
    | None =>
        if negb isAvailable then mret (Rejected LaunchSiteConflict)
        else
          '(isDestinationValid, err) ←
            CheckDestinationSchedule (DestinationID booking) (LaunchpadID booking)
                                     launchDate;
          match err with
          | Some err => mret (Rejected UpstreamError)
          | None =>
              if negb isDestinationValid
              then mret (Rejected DestinationRotationMismatch)
              else mret Accepted
          end
    end.

Definition StatusCreated : Z := 201.
Definition StatusBadRequest : Z := 400.
Definition StatusTooManyRequests : Z := 429.
Definition StatusInternalServerError : Z := 500.

Inductive ResponseBody : Type :=
| TextBody (msg : string)
| BookingJSON (booking : Booking)
| EmptyBody.

Record Response : Type := mkResponse {
  StatusCode : Z;
  Body : ResponseBody
}.

Definition http_Error (msg : string) (code : Z) : Response :=
  mkResponse code (TextBody msg).

Definition setID (booking : Booking) (id : Z) : Booking :=
  mkBooking id (FirstName booking) (LastName booking) (Gender booking)
            (Birthday booking) (LaunchpadID booking) (DestinationID booking)
            (LaunchDate booking).

(** [service.CreateBooking]: the insert, and the identifier written back
    into the booking. *)
Definition CreateBooking (booking : Booking) : IO (Booking * option error) :=
  r ← db_QueryRow_insert booking;
  match r with
  | inl err => mret (booking, Some err)
  | inr id => mret (setID booking id, None)
  end.

(** [CreateBookingHandler]; [decoded] is what decoding the request body
    into a [Booking] gave, [None] for a decoding error. *)
Definition CreateBookingHandler (decoded : option Booking) : IO Response :=
  match decoded with
  | None => mret (http_Error "Invalid request payload" StatusBadRequest)
  | Some booking =>
      '(valid, err) ← validateBooking booking;
      match err with
      | Some _ => mret (http_Error "Internal Server Error" StatusInternalServerError)
      | None =>
          if negb valid
          then mret (http_Error "Flight is cancelled due to scheduling conflicts."
                                StatusBadRequest)
          else
            '(booking, err) ← CreateBooking booking;
            match err with
            | Some _ =>
                mret (http_Error "Internal Server Error" StatusInternalServerError)
            | None => mret (mkResponse StatusCreated (BookingJSON booking))
            end
      end
  end.

(** ** Go's [float64] and [time.Duration] *)

(** A [float64] is the kernel's binary64 float, with its own rounding. *)
Definition float64 : Set := PrimFloat.float.

(** The conversion [float64(x)] of an integer of less than 64 bits, rounded
    to the nearest float. *)
Definition float64_of_int (x : Z) : float64 :=
  if x <? 0 then PrimFloat.opp (PrimFloat.of_uint63 (Uint63Axioms.of_Z (- x)))
  else PrimFloat.of_uint63 (Uint63Axioms.of_Z x).

(** The conversion [int64(f)], which drops the fraction.  For a float that
    is no number or lies outside [int64], Go leaves the result to the
    machine; the smallest [int64] is what amd64 gives. *)
Definition int64_of_float (f : float64) : Z :=
  match FloatOps.Prim2SF f with
  | SpecFloat.S754_zero _ => 0
  | SpecFloat.S754_finite s m e =>
      let v := if 0 <=? e then Z.pos m * 2 ^ e else Z.pos m / 2 ^ (- e) in
      if 2 ^ 63 <=? v then - 2 ^ 63 else if s then - v else v
  | _ => - 2 ^ 63
  end.

(** Durations are nanoseconds, as [time.Duration] is. *)
Definition Second : Z := 1000000000.
Definition maxDuration : Z := 2 ^ 63 - 1.
Definition minDuration : Z := - 2 ^ 63.

(** [d.Seconds()]. *)
Definition Seconds (d : Z) : float64 :=
  let sec := Z.quot d Second in
  let nsec := Z.rem d Second in
  PrimFloat.add (float64_of_int sec)
                (PrimFloat.div (float64_of_int nsec) (float64_of_int 1000000000)).

(** The times a limiter sees: the zero [time.Time], which its [last] field
    holds until the first request passes, and the readings of [time.Now()],
    in nanoseconds on the monotonic clock of the process. *)
Inductive Instant : Type :=
| ZeroTime
| Reading (mono : Z).

(** [t.Before(u)].  Every reading is after the zero time. *)
Definition Before (t u : Instant) : bool :=
  match t, u with
  | Reading a, Reading b => a <? b
  | Reading _, ZeroTime => false
  | ZeroTime, Reading _ => true
  | ZeroTime, ZeroTime => false
  end.

(** [t.Sub(u)]: between two readings the difference on the monotonic clock;
    a difference that does not fit a [Duration] gives the largest or the
    smallest one, which is the case between the zero time, January 1 of
    year 1, and any reading of a clock set to a date after the year 293. *)
Definition Sub (t u : Instant) : Z :=
  match t, u with
  | Reading a, Reading b =>
      let d := a - b in
      if maxDuration <? d then maxDuration
      else if d <? minDuration then minDuration
      else d
  | Reading _, ZeroTime => maxDuration
  | ZeroTime, Reading _ => minDuration
  | ZeroTime, ZeroTime => 0
  end.

(** ** [golang.org/x/time/rate], as far as the repository uses it *)

(** A [rate.Limiter]: the rate [limit] in tokens per second and the
    [tokens] in the bucket are [float64]s, as in the library. *)
Record Limiter : Type := mkLimiter {
  limit : float64;
  burst : Z;
  tokens : float64;
  last : Instant
}.

(** [rate.NewLimiter(r, b)]: a full bucket; [last] is the zero time. *)
Definition NewLimiter (r : float64) (b : Z) : Limiter :=
  mkLimiter r b (float64_of_int b) ZeroTime.

Definition InfDuration : Z := maxDuration.

(** [limit.tokensFromDuration(d)]. *)
Definition tokensFromDuration (limit : float64) (d : Z) : float64 :=
  if PrimFloat.leb limit (float64_of_int 0) then float64_of_int 0
  else PrimFloat.mul (Seconds d) limit.

(** [limit.durationFromTokens(tokens)]: the wait in whole nanoseconds, the
    fraction of a nanosecond dropped. *)
Definition durationFromTokens (limit : float64) (tokens : float64) : Z :=
  if PrimFloat.leb limit (float64_of_int 0) then InfDuration
  else
    let duration :=
      PrimFloat.mul (PrimFloat.div tokens limit) (float64_of_int Second) in
    if PrimFloat.ltb (float64_of_int maxDuration) duration then InfDuration
    else int64_of_float duration.

(** [lim.advance(t)]: the tokens the bucket holds at [t]. *)
Definition advance (lim : Limiter) (t : Instant) : Instant * float64 :=
  let last := if Before t (last lim) then t else last lim in
  let elapsed := Sub t last in
  let delta := tokensFromDuration (limit lim) elapsed in
  let tokens := PrimFloat.add (tokens lim) delta in
  let burst := float64_of_int (burst lim) in
  let tokens := if PrimFloat.ltb burst tokens then burst else tokens in
  (t, tokens).

(** [lim.reserveN(t, n, maxFutureReserve)], for a finite positive limit:
    the [ok] of the reservation and the limiter afterwards. *)
Definition reserveN (lim : Limiter) (t : Instant) (n maxFutureReserve : Z)
    : bool * Limiter :=
  let '(t, tokens) := advance lim t in
  let tokens := PrimFloat.sub tokens (float64_of_int n) in
  let waitDuration :=
    if PrimFloat.ltb tokens (float64_of_int 0)
    then durationFromTokens (limit lim) (PrimFloat.opp tokens)
    else 0 in
  let ok := (n <=? burst lim) && (waitDuration <=? maxFutureReserve) in
  if ok
  then (true, mkLimiter (limit lim) (burst lim) tokens t)
  else (false, lim).

(** [lim.Allow()] when [time.Now()] reads [now]. *)
Definition Allow (lim : Limiter) (now : Z) : bool * Limiter :=
  reserveN lim (Reading now) 1 0.

(** ** [internal/server/routes.go]: the rate-limiting middleware *)

(** [getVisitor]: the limiter of [ip], made on the first request.  The map
    holds pointers in Go; here the limiter is returned together with the
    map that holds it. *)
Definition getVisitor (ip : string) (visitors : gmap string Limiter)
    : Limiter * gmap string Limiter :=
  match visitors !! ip with
  | Some limiter => (limiter, visitors)
  | None =>
      let limiter := NewLimiter (float64_of_int 1) 3 in
      (limiter, <[ip := limiter]> visitors)
  end.

(** [getVisitor(ip).Allow()] at clock reading [now], the admission step of
    the middleware: whether the request may pass, and the map with [ip]'s
    limiter updated in place. *)
Definition visitorAllow (ip : string) (now : Z) (visitors : gmap string Limiter)
    : bool * gmap string Limiter :=
  let '(limiter, visitors) := getVisitor ip visitors in
  let '(ok, limiter) := Allow limiter now in
  (ok, <[ip := limiter]> visitors).

Record Request : Type := mkRequest {
  RemoteAddr : string;
  Payload : option Booking
}.

(** [rateLimitMiddleware(next)] serving request [r] at clock reading [now]. *)
Definition rateLimitMiddleware (next : Request → IO Response) (now : Z)
    (r : Request) (visitors : gmap string Limiter)
    : IO Response * gmap string Limiter :=
  let ip := RemoteAddr r in
  let '(limiter, visitors) := getVisitor ip visitors in
  let '(allowed, limiter) := Allow limiter now in
  let visitors := <[ip := limiter]> visitors in
  if negb allowed
  then (mret (http_Error "Too Many Requests" StatusTooManyRequests), visitors)
  else (next r, visitors).

(** The admission steps of a run of requests, one per [(ip, now)] in
    order. *)
Fixpoint admissions (events : list (string * Z)) (visitors : gmap string Limiter)
    : list bool * gmap string Limiter :=
  match events with
  | [] => ([], visitors)
  | (ip, now) :: rest =>
      let '(ok, visitors) := visitorAllow ip now visitors in
      let '(oks, visitors) := admissions rest visitors in
      (ok :: oks, visitors)
  end.

(** ** Definitions used in the statements *)

(** *** Reading dates back *)

(** Reading a decimal numeral back. *)
Fixpoint digitsValue (acc : N) (s : string) : N :=
  match s with
  | EmptyString => acc
  | String c s' => digitsValue (acc * 10 + (N_of_ascii c - 48)) s'
  end.

(** Reading back what [appendInt] writes. *)
Definition readInt (s : string) : Z :=
  match s with
  | String "-" s' => - Z.of_N (digitsValue 0 s')
  | _ => Z.of_N (digitsValue 0 s)
  end.

(** [t.In(loc)]: the same instant on the wall clock of another location,
    given by its offset. *)
Definition In_zone (t : Time) (offset : Z) : Time :=
  mkTime (t_sec t) (t_nsec t) offset.

(** [t.UTC()]. *)
Definition UTC (t : Time) : Time := In_zone t 0.

(** *** The two checks as functions of what the world answers *)

(** What [CheckLaunchpadAvailability] returns, by the answer of the feed. *)
Definition feedResult (feed : FeedResponse) (launchpadID : string)
    (launchDate : Time) : bool * option error :=
  match feed with
  | GetFailed err | ReadAllFailed err | UnmarshalFailed err => (false, Some err)
  | Decoded launches => scanLaunches launchpadID launchDate launches
  end.

(** What [CheckDestinationSchedule] returns, by the answer of the store. *)
Definition scheduleResult (rows : RowsResult) (destinationID : Z)
    (launchDate : Time) : bool * option error :=
  match rows with
  | QueryFailed err | ScanFailed err | RowsErr err => (false, Some err)
  | Rows destinationIDs =>
      match destinationIDs !! Z.to_nat (rotationIndex launchDate destinationIDs) with
      | Some expected => (bool_decide (destinationID = expected), None)
      | None => (false, Some (fmt_Errorf "no destinations available"))
      end
  end.

(** The feed gave no launches: one of the three steps of the fetch failed. *)
Definition feedFailed (feed : FeedResponse) : Prop :=
  match feed with
  | GetFailed _ | ReadAllFailed _ | UnmarshalFailed _ => True
  | Decoded _ => False
  end.

Definition setDestinationID (booking : Booking) (destinationID : Z) : Booking :=
  mkBooking (ID booking) (FirstName booking) (LastName booking) (Gender booking)
            (Birthday booking) (LaunchpadID booking) destinationID
            (LaunchDate booking).

Definition setBirthday (booking : Booking) (birthday : Time) : Booking :=
  mkBooking (ID booking) (FirstName booking) (LastName booking) (Gender booking)
            birthday (LaunchpadID booking) (DestinationID booking)
            (LaunchDate booking).

(** *** The registry of limiters *)

(** The limiter that [getVisitor] hands out for [ip]. *)
Definition limiterOf (ip : string) (visitors : gmap string Limiter) : Limiter :=
  default (NewLimiter (float64_of_int 1) 3) (visitors !! ip).

(** What one client sees of a run of requests: the answers to its own. *)
Fixpoint outcomesOf (ip : string) (events : list (string * Z))
    (visitors : gmap string Limiter) : list bool :=
  match events with
  | [] => []
  | (ip', now) :: rest =>
      let '(ok, visitors) := visitorAllow ip' now visitors in
      if decide (ip' = ip)
      then ok :: outcomesOf ip rest visitors
      else outcomesOf ip rest visitors
  end.





(** *** Values of the repository's tests, and a few more *)

Definition mockWorld (feed : FeedResponse) (rows : RowsResult) : World :=
  mkWorld feed rows (λ _, inr 1).

(** [time.Date(2049, time.December, 25, 0, 0, 0, 0, time.UTC)]. *)
Definition testLaunchDate : Time := Date 2049 12 25 0 0 0 0.

Definition weekDestinations : list Z := [1; 2; 3; 4; 5; 6; 7].

Definition testLaunch : Launch :=
  mkLaunch "test_launchpad" "Test Launch" "2049-12-25T00:00:00Z" "launch_1".

Definition invalidLaunch : Launch :=
  mkLaunch "test_launchpad" "Invalid Date Launch" "invalid-date-format" "launch_3".

Definition testBooking : Booking :=
  mkBooking 0 "Test" "User" "Non-binary" (Date 1990 1 1 0 0 0 0)
            "test_launchpad" 1 testLaunchDate.

Definition bookingWithoutBirthday : Booking := setBirthday testBooking Time_zero.

Definition feedDown : FeedResponse := GetFailed (errorString "connection refused").

(** A launch at the test launch pad late in the evening of 2049-12-25,
    five hours west of UTC, and the time its timestamp parses to. *)
Definition eveningLaunch : Launch :=
  mkLaunch "test_launchpad" "Evening Launch" "2049-12-25T23:30:00-05:00" "launch_4".

Definition eveningTime : Time := mkTime 64659702600 0 (-18000).

(** [time.Date(2049, time.December, 26, 0, 0, 0, 0, time.UTC)]. *)
Definition nextDay : Time := Date 2049 12 26 0 0 0 0.

(** A launch whose timestamp has a one-digit hour, which the RFC 3339
    grammar does not take and the general parser does, and the time it
    parses to. *)
Definition shortHourLaunch : Launch :=
  mkLaunch "test_launchpad" "Short Hour Launch" "2049-12-25T1:00:00Z" "launch_5".

Definition shortHourTime : Time := Date 2049 12 25 1 0 0 0.

(** Two clients at one address, on two ports. *)
Definition clientA : string := "192.0.2.1:1234".
Definition clientB : string := "192.0.2.1:1235".


(** Four requests within four nanoseconds. *)
Definition fourInARow : list (string * Z) :=
  [(clientA, 5 * Second); (clientA, 5 * Second + 1);
   (clientA, 5 * Second + 2); (clientA, 5 * Second + 3)].

(** Three requests at one instant. *)
Definition threeAtOnce : list (string * Z) :=
  [(clientA, 5 * Second); (clientA, 5 * Second); (clientA, 5 * Second)].

(** Three requests at one instant and a fourth 999,999,999 ns later. *)
Definition hairUnderASecond : list (string * Z) :=
  [(clientA, 5 * Second); (clientA, 5 * Second); (clientA, 5 * Second);
   (clientA, 5 * Second + 999999999)].


(** * The rest of the code *)

(** ** The calendar the other way round *)

(** [daysIn(December, year)] summed over the year, as [Date] and [absDate]
    count it. *)
Definition daysInYear (year : Z) : Z := if isLeap year then 366 else 365.

(** The day of the year that [Date] counts for a month and a day. *)
Definition yearDay (year month day : Z) : Z :=
  daysBefore (month - 1) + (if isLeap year && (3 <=? month) then 1 else 0) + (day - 1).

(** [monthDay] and [yearDay] read the year through [isLeap] only. *)
Definition monthDayOf (leap : bool) (yday : Z) : Z * Z :=
  let leapDay := leap && (yday =? 31 + 29 - 1) in
  if leapDay then (2, 29)
  else
    let day := if leap && (31 + 29 - 1 <? yday) then yday - 1 else yday in
    let month := day / 31 in
    let end_ := daysBefore (month + 1) in
    if end_ <=? day
    then (month + 2, day - end_ + 1)
    else (month + 1, day - daysBefore month + 1).

(** [yearDay] likewise. *)
Definition yearDayOf (leap : bool) (month day : Z) : Z :=
  daysBefore (month - 1) + (if leap && (3 <=? month) then 1 else 0) + (day - 1).

(** [daysIn] likewise. *)
Definition daysInOf (leap : bool) (m : Z) : Z :=
  if (m =? 2) && leap then 29 else daysBefore m - daysBefore (m - 1).

(** Every day of every month is found again by [monthDay], checked over the
    twelve months of a common and of a leap year. *)
Definition monthDay_checked (leap : bool) : bool :=
  forallb (λ month,
    forallb (λ day,
      negb ((1 <=? month) && (1 <=? day) && (day <=? daysInOf leap month)) ||
      (let '(m, d) := monthDayOf leap (yearDayOf leap month day) in
       (m =? month) && (d =? day)) &&
      (0 <=? yearDayOf leap month day) &&
      (yearDayOf leap month day <? (if leap then 366 else 365)))
      (map Z.of_nat (seq 0 32)))
    (map Z.of_nat (seq 0 13)).

(** The character of a decimal digit. *)
Definition digitChar (v : Z) : ascii := ascii_of_N (Z.to_N (48 + v)).

(** Every day of the year is counted again by [yearDay], checked likewise. *)
Definition yearDay_checked (leap : bool) : bool :=
  forallb (λ yd,
    negb (yd <? (if leap then 366 else 365)) ||
    (let '(m, d) := monthDayOf leap yd in yearDayOf leap m d =? yd))
    (map Z.of_nat (seq 0 366)).

(** ** Requests and runs used in the statements *)

Definition setLaunchDate (booking : Booking) (launchDate : Time) : Booking :=
  mkBooking (ID booking) (FirstName booking) (LastName booking) (Gender booking)
            (Birthday booking) (LaunchpadID booking) (DestinationID booking)
            launchDate.

(** The Monday of the week of the repository's test date, and the days
    after it. *)
Definition weekOfTest (i : Z) : Time := Date 2049 12 (20 + i) 0 0 0 0.

(** The booking endpoint behind the middleware. *)
Definition serveBooking (r : Request) : IO Response :=
  CreateBookingHandler (Payload r).

(** ** [internal/database/database.go]: the rest of the service *)

(** [err.Error()], which [%v] prints. *)
Definition error_Error (err : error) : string :=
  match err with errorString msg => msg end.

(** A call returns, or ends the process through [log.Fatal]/[log.Fatalf]
    after logging a line. *)
Inductive Exit (A : Type) : Type :=
| Returns (a : A)
| Fatal (logged : string).
Arguments Returns {A} a.
Arguments Fatal {A} logged.

(** The fields of [sql.DBStats] that [Health] reads. *)
Record DBStats : Type := mkDBStats {
  OpenConnections : Z;
  InUse : Z;
  Idle : Z;
  WaitCount : Z;
  WaitDuration : Z;
  MaxIdleClosed : Z;
  MaxLifetimeClosed : Z
}.

Definition messageHealthy : string := "It's healthy".
Definition messageHeavyLoad : string := "The database is experiencing heavy load.".
Definition messageWaitEvents : string :=
  "The database has a high number of wait events, indicating potential bottlenecks.".
Definition messageIdleClosed : string :=
  "Many idle connections are being closed, consider revising the connection pool settings.".
Definition messageLifetimeClosed : string :=
  "Many connections are being closed due to max lifetime, consider increasing max lifetime or revising the connection usage pattern.".

(** [Health]; [ping] is what [PingContext] returned, [dbStats] what [Stats]
    would return, and [Duration_String] is [time.Duration.String]. *)
Definition Health (Duration_String : Z → string) (ping : option error)
    (dbStats : DBStats) : Exit (gmap string string) :=
  let stats : gmap string string := ∅ in
  match ping with
  | Some err =>
      let stats := <["status" := "down"]> stats in
      let stats := <["error" := "db down: " +:+ error_Error err]> stats in
      Fatal ("db down: " +:+ error_Error err)
  | None =>
      let stats := <["status" := "up"]> stats in
      let stats := <["message" := messageHealthy]> stats in
      let stats := <["open_connections" := pretty (OpenConnections dbStats)]> stats in
      let stats := <["in_use" := pretty (InUse dbStats)]> stats in
      let stats := <["idle" := pretty (Idle dbStats)]> stats in
      let stats := <["wait_count" := pretty (WaitCount dbStats)]> stats in
      let stats := <["wait_duration" := Duration_String (WaitDuration dbStats)]> stats in
      let stats := <["max_idle_closed" := pretty (MaxIdleClosed dbStats)]> stats in
      let stats :=
        <["max_lifetime_closed" := pretty (MaxLifetimeClosed dbStats)]> stats in
      let stats :=
        if 100 <? OpenConnections dbStats
        then <["message" := messageHeavyLoad]> stats else stats in
      let stats :=
        if 1000 <? WaitCount dbStats
        then <["message" := messageWaitEvents]> stats else stats in
      let stats :=
        if Z.quot (OpenConnections dbStats) 2 <? MaxIdleClosed dbStats
        then <["message" := messageIdleClosed]> stats else stats in
      let stats :=
        if Z.quot (OpenConnections dbStats) 2 <? MaxLifetimeClosed dbStats
        then <["message" := messageLifetimeClosed]> stats else stats in
      Returns stats
  end.

(** The package variables that [New] reads. *)
Record Config : Type := mkConfig {
  database : string;
  password : string;
  username : string;
  port : string;
  host : string;
  schema : string
}.

(** The [connStr] of [New]. *)
Definition connStr (cfg : Config) : string :=
  "postgres://" +:+ username cfg +:+ ":" +:+ password cfg +:+ "@" +:+ host cfg
  +:+ ":" +:+ port cfg +:+ "/" +:+ database cfg
  +:+ "?sslmode=disable&search_path=" +:+ schema cfg.

(** The [service] struct, over the type of database handles. *)
Record service (DB : Type) : Type := mkService { db : DB }.
Arguments mkService {DB} db.
Arguments db {DB} s.

(** [New]: the instance returned, the package variable [dbInstance]
    afterwards, and the connection strings handed to [sql.Open]. *)
Definition New {DB : Type} (sql_Open : string → string → error + DB)
    (cfg : Config) (dbInstance : option (service DB))
    : Exit (service DB * option (service DB)) * list string :=
  match dbInstance with
  | Some instance => (Returns (instance, dbInstance), [])
  | None =>
      match sql_Open "pgx" (connStr cfg) with
      | inl err => (Fatal (error_Error err), [connStr cfg])
      | inr handle =>
          let dbInstance := Some (mkService handle) in
          (Returns (mkService handle, dbInstance), [connStr cfg])
      end
  end.

(** A Go slice: [nil], or elements. *)
Inductive Slice (A : Type) : Type :=
| nil_slice
| slice_of (elems : list A).
Arguments nil_slice {A}.
Arguments slice_of {A} elems.

Definition append {A : Type} (s : Slice A) (x : A) : Slice A :=
  match s with
  | nil_slice => slice_of [x]
  | slice_of elems => slice_of (elems ++ [x])
  end.

(** What [SELECT ... FROM bookings] answers: the query fails, or the rows
    that [rows.Next] steps through, each with what [rows.Scan] makes of it,
    and what [rows.Err] would say after the last. *)
Inductive BookingRows : Type :=
| BookingsQueryFailed (err : error)
| BookingsCursor (scans : list (error + Booking)) (iterErr : option error).

(** The loop [for rows.Next()] of [GetAllBookings]. *)
Fixpoint scanBookings (scans : list (error + Booking)) (bookings : Slice Booking)
    : Slice Booking * option error :=
  match scans with
  | [] => (bookings, None)
  | inl err :: _ => (nil_slice, Some err)
  | inr booking :: rest => scanBookings rest (append bookings booking)
  end.

Definition GetAllBookings (rows : BookingRows) : Slice Booking * option error :=
  match rows with
  | BookingsQueryFailed err => (nil_slice, Some err)
  | BookingsCursor scans _ => scanBookings scans nil_slice
  end.

Definition StatusOK : Z := 200.

Inductive BookingsBody : Type :=
| BookingsText (msg : string)
| BookingsJSON (bookings : Slice Booking).

(** [GetAllBookingsHandler]: status and body. *)
Definition GetAllBookingsHandler (rows : BookingRows) : Z * BookingsBody :=
  let '(bookings, err) := GetAllBookings rows in
  match err with
  | Some _ => (StatusInternalServerError, BookingsText "Internal Server Error")
  | None => (StatusOK, BookingsJSON bookings)
  end.

(** [healthHandler]: the status and the map it writes as JSON. *)
Definition healthHandler (Duration_String : Z → string) (ping : option error)
    (dbStats : DBStats) : Exit (Z * gmap string string) :=
  match Health Duration_String ping dbStats with
  | Returns stats => Returns (StatusOK, stats)
  | Fatal logged => Fatal logged
  end.

(** The slice that appending the elements of a list to [nil] makes. *)
Definition sliceOfList {A : Type} (l : list A) : Slice A :=
  match l with
  | [] => nil_slice
  | _ => slice_of l
  end.

(** A pool with no open connection that closed one idle connection. *)
Definition idlePool : DBStats := mkDBStats 0 0 0 0 0 1 0.

(** Settings of a local database. *)
Definition localConfig : Config :=
  mkConfig "space" "secret" "rocket" "5432" "localhost" "public".

(** * Properties *)

(** ** Tests of the repository, replayed *)

Example TestCheckLaunchpadAvailability :
  CheckLaunchpadAvailability "test_launchpad" testLaunchDate
    (mockWorld (Decoded [mkLaunch "test_launchpad" "Test Launch"
                                  "2049-12-25T00:00:00Z" "launch_1"])
               (Rows []))
  = (Done (false, None), [CallHttpGet]).
Proof. vm_compute. reflexivity. Qed.

Example TestCheckLaunchpadAvailability_NoConflict :
  CheckLaunchpadAvailability "test_launchpad" testLaunchDate
    (mockWorld (Decoded [mkLaunch "test_launchpad" "Another Launch"
                                  "2049-12-26T00:00:00Z" "launch_2"])
               (Rows []))
  = (Done (true, None), [CallHttpGet]).
Proof. vm_compute. reflexivity. Qed.

Example TestCheckLaunchpadAvailability_InvalidDate :
  CheckLaunchpadAvailability "test_launchpad" testLaunchDate
    (mockWorld (Decoded [mkLaunch "test_launchpad" "Invalid Date Launch"
                                  "invalid-date-format" "launch_3"])
               (Rows []))
  = (Done (true, None), [CallHttpGet]).
Proof. vm_compute. reflexivity. Qed.

Example TestCheckDestinationSchedule :
  CheckDestinationSchedule 6 "test_launchpad" testLaunchDate
    (mockWorld (Decoded []) (Rows [1; 2; 3; 4; 5; 6; 7]))
  = (Done (true, None), [CallQueryDestinations]).
Proof. vm_compute. reflexivity. Qed.

Example TestRateLimitMiddleware :
  (admissions [(clientA, 0); (clientA, 1); (clientA, 2); (clientA, 3);
               (clientA, 3 + Second)] ∅).1
  = [true; true; true; false; true].
Proof. vm_compute. reflexivity. Qed.

(** Rounding at work in the limiter: a fourth request 999,999,999 ns after
    three at one instant passes and leaves the bucket a hair below empty,
    so that exactly three seconds later only two requests pass. *)
Example limiter_rounding :
  (admissions (hairUnderASecond ++
               [(clientA, 8 * Second + 999999999); (clientA, 8 * Second + 999999999);
                (clientA, 8 * Second + 999999999); (clientA, 8 * Second + 999999999)])
              ∅).1
  = [true; true; true; true; true; true; false; false].
Proof. vm_compute. reflexivity. Qed.

Example CreateBookingHandler_created :
  CreateBookingHandler (Some (setDestinationID testBooking 6))
    (mockWorld (Decoded []) (Rows weekDestinations))
  = (Done (mkResponse StatusCreated
             (BookingJSON (setID (setDestinationID testBooking 6) 1))),
     [CallHttpGet; CallQueryDestinations;
      CallInsertBooking (setDestinationID testBooking 6)]).
Proof. vm_compute. reflexivity. Qed.

(** ** Facts about [time] *)

Example parse_test_date :
  time_Parse_RFC3339 "2049-12-25T00:00:00Z" = Some (Date 2049 12 25 0 0 0 0).
Proof. vm_compute. reflexivity. Qed.

Example parse_invalid : time_Parse_RFC3339 "invalid-date-format" = None.
Proof. vm_compute. reflexivity. Qed.

(** [Parse] takes more than the RFC 3339 grammar: an hour of one digit, a
    comma before the fraction, an offset of 24 hours or of 60 minutes. *)
Example parse_beyond_the_grammar :
  map parseRFC3339
      ["2049-12-25T1:00:00Z"; "2049-12-25T00:00:00,5Z";
       "2049-12-25T00:00:00+24:00"; "2049-12-25T00:00:00+23:60"]
    = [None; None; None; None] ∧
  map time_Parse_RFC3339
      ["2049-12-25T1:00:00Z"; "2049-12-25T00:00:00,5Z";
       "2049-12-25T00:00:00+24:00"; "2049-12-25T00:00:00+23:60"]
    = [Some shortHourTime;
       Some (mkTime 64659600000 500000000 0);
       Some (mkTime 64659513600 0 86400);
       Some (mkTime 64659513600 0 86400)] ∧
  time_Parse_RFC3339 "2049-12-25T00:00:00+25:00" = None.
Proof. repeat split; vm_compute; reflexivity. Qed.

(** A record with such a timestamp is a record like any other: it makes the
    site unavailable on its day. *)
Example site_check_short_hour :
  CheckLaunchpadAvailability "test_launchpad" testLaunchDate
    (mockWorld (Decoded [shortHourLaunch]) (Rows weekDestinations))
  = (Done (false, None), [CallHttpGet]).
Proof. vm_compute. reflexivity. Qed.

Example format_test_date : Format_date (Date 2049 12 25 0 0 0 0) = "2049-12-25".
Proof. vm_compute. reflexivity. Qed.

Example weekday_test_date : Weekday (Date 2049 12 25 0 0 0 0) = Saturday.
Proof. vm_compute. reflexivity. Qed.

Lemma list_ascii_app (s1 s2 : string) :
  list_ascii_of_string (s1 +:+ s2) = list_ascii_of_string s1 ++ list_ascii_of_string s2.
Proof. induction s1 as [|c s1 IH]; simpl; [done|]. by rewrite IH. Qed.

Lemma pretty_N_char_value (d : N) :
  (d < 10)%N → (N_of_ascii (pretty_N_char d) - 48 = d)%N.
Proof.
  intros Hd.
  assert (d = 0 ∨ d = 1 ∨ d = 2 ∨ d = 3 ∨ d = 4 ∨ d = 5 ∨ d = 6 ∨ d = 7 ∨
          d = 8 ∨ d = 9)%N as Hcases by lia.
  repeat (destruct Hcases as [-> | Hcases]; [reflexivity|]). by subst.
Qed.

Lemma digitsValue_pretty_N_go (x : N) :
  ∃ k : N, ∀ acc s,
    digitsValue acc (pretty_N_go x s) = digitsValue (acc * 10 ^ k + x)%N s.
Proof.
  induction (N.lt_wf_0 x) as [x _ IH].
  destruct (decide (x = 0)%N) as [-> | Hx].
  - exists 0%N. intros acc s. rewrite pretty_N_go_0. f_equal. lia.
  - destruct (IH (x `div` 10)%N) as [k Hk].
    { apply N.div_lt; lia. }
    exists (k + 1)%N. intros acc s.
    rewrite pretty_N_go_step by lia. rewrite Hk. simpl.
    rewrite pretty_N_char_value by (apply N.mod_lt; lia).
    f_equal. rewrite N.pow_add_r, N.pow_1_r.
    pose proof (N.div_mod x 10). lia.
Qed.

Lemma digitsValue_pretty (n : N) : digitsValue 0 (pretty n) = n.
Proof.
  unfold pretty, pretty_N. case_decide as Hn; [by subst|].
  destruct (digitsValue_pretty_N_go n) as [k Hk]. rewrite Hk. simpl. lia.
Qed.

Lemma digitsValue_zeros (k : nat) (s : string) :
  digitsValue 0 (string_of_list_ascii (replicate k "0"%char) +:+ s) = digitsValue 0 s.
Proof. induction k as [|k IH]; simpl; [done|]. exact IH. Qed.


Lemma pretty_N_not_dash (n : N) (s : string) : pretty n ≠ String "-" s.
Proof.
  unfold pretty, pretty_N. case_decide; [done|].
  apply (pretty_N_go_ne_dash n "" s). done.
Qed.

Lemma readInt_appendInt (x : Z) (width : nat) : readInt (appendInt x width) = x.
Proof.
  unfold appendInt. destruct (Z.ltb_spec x 0) as [Hneg | Hpos].
  - simpl. rewrite digitsValue_zeros, digitsValue_pretty. lia.
  - 
    assert (readInt (string_of_list_ascii (replicate (width - String.length (pretty (Z.abs_N x))) "0"%char)
                     +:+ pretty (Z.abs_N x))
            = Z.of_N (digitsValue 0
                (string_of_list_ascii (replicate (width - String.length (pretty (Z.abs_N x))) "0"%char)
                     +:+ pretty (Z.abs_N x)))) as ->.
    { destruct (width - String.length (pretty (Z.abs_N x)))%nat as [|k]; simpl; [|done].
      destruct (pretty (Z.abs_N x)) as [|c s] eqn:Hp; [done|].
      destruct (decide (c = "-"%char)) as [-> | Hc].
      - by destruct (pretty_N_not_dash (Z.abs_N x) s).
      - unfold readInt.
        destruct c as [[] [] [] [] [] [] [] []]; try reflexivity. by destruct Hc. }
    rewrite digitsValue_zeros, digitsValue_pretty. lia.
Qed.

Lemma appendInt_inj (width : nat) (x y : Z) :
  appendInt x width = appendInt y width → x = y.
Proof.
  intros H. rewrite <- (readInt_appendInt x width), <- (readInt_appendInt y width).
  by rewrite H.
Qed.

Lemma absYearDay_range (days : Z) : 0 ≤ (absYearDay days).2 ≤ 365.
Proof.
  unfold absYearDay, daysPer400Years, daysPer100Years, daysPer4Years. simpl.
  rewrite !Z.shiftr_div_pow2 by lia. change (2 ^ 2) with 4.
  Z.to_euclidean_division_equations. lia.
Qed.

Lemma monthDay_range (year yday : Z) :
  0 ≤ yday ≤ 365 →
  (0 ≤ (monthDay year yday).1 < 100) ∧ (0 ≤ (monthDay year yday).2 < 100).
Proof.
  intros Hy. unfold monthDay.
  destruct (isLeap year && (yday =? 31 + 29 - 1)); [simpl; lia|].
  set (day := if isLeap year && (31 + 29 - 1 <? yday) then yday - 1 else yday).
  assert (0 ≤ day ≤ 365) as Hday.
  { subst day. destruct (isLeap year && (31 + 29 - 1 <? yday)) eqn:E; [|lia].
    apply andb_true_iff in E as [_ E]. apply Z.ltb_lt in E. lia. }
  clearbody day.
  assert (0 ≤ day / 31 ≤ 11) as Hm by (Z.to_euclidean_division_equations; lia).
  assert (31 * (day / 31) ≤ day < 31 * (day / 31) + 31) as Hd
    by (Z.to_euclidean_division_equations; lia).
  set (m := day / 31) in *. clearbody m.
  assert (m = 0 ∨ m = 1 ∨ m = 2 ∨ m = 3 ∨ m = 4 ∨ m = 5 ∨ m = 6 ∨ m = 7 ∨
          m = 8 ∨ m = 9 ∨ m = 10 ∨ m = 11) as Hcases by lia.
  repeat (destruct Hcases as [-> | Hcases]);
    try subst m; simpl daysBefore;
    match goal with |- context [if ?a <=? ?b then _ else _] =>
      destruct (Z.leb_spec a b) end;
    simpl; lia.
Qed.

Lemma Date_of_range (t : Time) :
  (0 ≤ (Date_of t).1.2 < 100) ∧ (0 ≤ (Date_of t).2 < 100).
Proof.
  unfold Date_of.
  pose proof (absYearDay_range (absDays t)) as Hy.
  destruct (absYearDay (absDays t)) as [year yday]. simpl in Hy.
  pose proof (monthDay_range year yday Hy) as Hm.
  destruct (monthDay year yday) as [month day]. exact Hm.
Qed.

Lemma forallb_below (P : Z → bool) (n : nat) :
  forallb P (map Z.of_nat (seq 0 n)) = true →
  ∀ x, 0 ≤ x < Z.of_nat n → P x = true.
Proof.
  intros H x Hx. rewrite forallb_forall in H. apply H.
  apply in_map_iff. exists (Z.to_nat x). split; [lia|].
  apply in_seq. lia.
Qed.

Lemma appendInt_2_length (x : Z) :
  0 ≤ x < 100 → length (list_ascii_of_string (appendInt x 2)) = 2%nat.
Proof.
  intros Hx.
  apply (forallb_below
           (λ x, Nat.eqb (length (list_ascii_of_string (appendInt x 2))) 2) 100)
    in Hx; [by apply Nat.eqb_eq in Hx|].
  vm_compute. reflexivity.
Qed.

Lemma Format_date_list (t : Time) :
  list_ascii_of_string (Format_date t) =
  list_ascii_of_string (appendInt (Date_of t).1.1 4) ++ "-"%char ::
  list_ascii_of_string (appendInt (Date_of t).1.2 2) ++ "-"%char ::
  list_ascii_of_string (appendInt (Date_of t).2 2).
Proof.
  unfold Format_date. destruct (Date_of t) as [[year month] day]. simpl.
  by rewrite !list_ascii_app.
Qed.

(** Two renderings in the layout ["2006-01-02"] are the same string exactly
    when year, month and day are the same. *)
Lemma Format_date_inj (t1 t2 : Time) :
  Format_date t1 = Format_date t2 ↔ Date_of t1 = Date_of t2.
Proof.
  split; [|by unfold Format_date; intros ->].
  intros H. apply (f_equal list_ascii_of_string) in H.
  rewrite !Format_date_list in H.
  destruct (Date_of_range t1) as [Hm1 Hd1], (Date_of_range t2) as [Hm2 Hd2].
  destruct (Date_of t1) as [[y1 m1] d1], (Date_of t2) as [[y2 m2] d2].
  simpl in *.
  pose proof (appendInt_2_length m1 Hm1) as Lm1.
  pose proof (appendInt_2_length m2 Hm2) as Lm2.
  pose proof (appendInt_2_length d1 Hd1) as Ld1.
  pose proof (appendInt_2_length d2 Hd2) as Ld2.
  assert (length (list_ascii_of_string (appendInt y1 4)) =
          length (list_ascii_of_string (appendInt y2 4))) as Ly.
  { apply (f_equal length) in H. rewrite !length_app in H. simpl in H.
    rewrite !length_app in H. simpl in H. lia. }
  apply app_inj_1 in H as [Hy H]; [|exact Ly].
  injection H as H.
  apply app_inj_1 in H as [Hm H]; [|lia].
  injection H as Hd.
  apply (f_equal string_of_list_ascii) in Hy, Hm, Hd.
  rewrite !string_of_list_ascii_of_string in Hy, Hm, Hd.
  apply appendInt_inj in Hy, Hm, Hd. by subst.
Qed.

(** ** Facts about the two checks *)

Lemma Weekday_range (t : Time) : 0 ≤ Weekday t ≤ 6.
Proof.
  unfold Weekday, Monday, secondsPerDay, secondsPerHour, secondsPerMinute.
  Z.to_euclidean_division_equations. lia.
Qed.

Lemma rotationWeekday_range (t : Time) : 0 ≤ rotationWeekday t ≤ 6.
Proof.
  unfold rotationWeekday. pose proof (Weekday_range t).
  rewrite Z.rem_mod_nonneg by lia.
  Z.to_euclidean_division_equations. lia.
Qed.

Lemma rotationIndex_range (t : Time) (destinationIDs : list Z) :
  destinationIDs ≠ [] →
  0 ≤ rotationIndex t destinationIDs < Z.of_nat (length destinationIDs).
Proof.
  intros Hne. unfold rotationIndex. pose proof (rotationWeekday_range t).
  assert (0 < Z.of_nat (length destinationIDs)) by (destruct destinationIDs; [done|simpl; lia]).
  rewrite Z.rem_mod_nonneg by lia. apply Z.mod_pos_bound. lia.
Qed.

Lemma CheckLaunchpadAvailability_run (launchpadID : string) (launchDate : Time) (w : World) :
  CheckLaunchpadAvailability launchpadID launchDate w =
  (Done (feedResult (spacex_feed w) launchpadID launchDate), [CallHttpGet]).
Proof.
  unfold CheckLaunchpadAvailability, mbind, IO_mbind, IO_bind, http_Get, feedResult.
  by destruct (spacex_feed w).
Qed.

Lemma index_slice_in_range {A : Type} (s : list A) (i : Z) (w : World) :
  0 ≤ i < Z.of_nat (length s) →
  ∃ x, s !! Z.to_nat i = Some x ∧ index_slice s i w = (Done x, []).
Proof.
  intros Hi. unfold index_slice.
  destruct (Z.leb_spec 0 i); [|lia].
  destruct (s !! Z.to_nat i) as [x|] eqn:Hx; [by exists x|].
  apply lookup_ge_None in Hx. lia.
Qed.

Lemma CheckDestinationSchedule_nonempty (destinationID : Z) (launchpadID : string)
    (launchDate : Time) (w : World) (destinationIDs : list Z) :
  destinations_rows w = Rows destinationIDs →
  destinationIDs ≠ [] →
  ∃ expected,
    destinationIDs !! Z.to_nat (rotationIndex launchDate destinationIDs) = Some expected ∧
    CheckDestinationSchedule destinationID launchpadID launchDate w =
    (Done (bool_decide (destinationID = expected), None), [CallQueryDestinations]).
Proof.
  intros Hrows Hne.
  destruct (index_slice_in_range destinationIDs (rotationIndex launchDate destinationIDs) w)
    as (expected & Hlook & Hidx); [by apply rotationIndex_range|].
  exists expected. split; [done|].
  unfold CheckDestinationSchedule, mbind, IO_mbind, IO_bind, db_Query_destinations.
  rewrite Hrows.
  destruct destinationIDs as [|d ds]; [done|].
  change (length (d :: ds) =? 0)%nat with false. cbv iota.
  unfold rotationIndex, rotationWeekday in Hidx. cbv beta. rewrite Hidx.
  destruct (Z.eqb_spec destinationID expected) as [-> | Hd].
  - by rewrite bool_decide_eq_true_2.
  - by rewrite bool_decide_eq_false_2.
Qed.

Lemma CheckDestinationSchedule_run (destinationID : Z) (launchpadID : string)
    (launchDate : Time) (w : World) :
  CheckDestinationSchedule destinationID launchpadID launchDate w =
  (Done (scheduleResult (destinations_rows w) destinationID launchDate),
   [CallQueryDestinations]).
Proof.
  unfold scheduleResult.
  destruct (destinations_rows w) as [err|err|err|[|d ds]] eqn:Hrows;
    try (unfold CheckDestinationSchedule, mbind, IO_mbind, IO_bind,
           db_Query_destinations; by rewrite Hrows).
  destruct (CheckDestinationSchedule_nonempty destinationID launchpadID launchDate
              w (d :: ds) Hrows) as (expected & Hlook & Hrun); [done|].
  by rewrite Hrun, Hlook.
Qed.

Lemma Validate_zero (booking : Booking) (w : World) :
  IsZero (LaunchDate booking) || IsZero (Birthday booking) = true →
  Validate booking w = (Done (Rejected MissingFields), []).
Proof. intros H. unfold Validate. by rewrite H. Qed.

Lemma validateBooking_zero (booking : Booking) (w : World) :
  IsZero (LaunchDate booking) || IsZero (Birthday booking) = true →
  validateBooking booking w =
  (Done (false, Some (fmt_Errorf "launch date and birthday must be provided")), []).
Proof. intros H. unfold validateBooking. by rewrite H. Qed.

Lemma Validate_present (booking : Booking) (w : World) :
  IsZero (LaunchDate booking) || IsZero (Birthday booking) = false →
  Validate booking w =
  match feedResult (spacex_feed w) (LaunchpadID booking) (LaunchDate booking) with
  | (_, Some _) => (Done (Rejected UpstreamError), [CallHttpGet])
  | (false, None) => (Done (Rejected LaunchSiteConflict), [CallHttpGet])
  | (true, None) =>
      match scheduleResult (destinations_rows w) (DestinationID booking)
                           (LaunchDate booking) with
      | (_, Some _) =>
          (Done (Rejected UpstreamError), [CallHttpGet; CallQueryDestinations])
      | (false, None) =>
          (Done (Rejected DestinationRotationMismatch),
           [CallHttpGet; CallQueryDestinations])
      | (true, None) => (Done Accepted, [CallHttpGet; CallQueryDestinations])
      end
  end.
Proof.
  intros H. unfold Validate. rewrite H.
  unfold mbind, IO_mbind, IO_bind.
  rewrite CheckLaunchpadAvailability_run. fold (feedResult (spacex_feed w)
    (LaunchpadID booking) (LaunchDate booking)).
  destruct (feedResult _ _ _) as [[|] [err|]]; try reflexivity.
  cbn [negb]. cbv beta iota. rewrite CheckDestinationSchedule_run.
  by destruct (scheduleResult _ _ _) as [[|] [err|]].
Qed.

Lemma validateBooking_present (booking : Booking) (w : World) :
  IsZero (LaunchDate booking) || IsZero (Birthday booking) = false →
  validateBooking booking w =
  match feedResult (spacex_feed w) (LaunchpadID booking) (LaunchDate booking) with
  | (_, Some err) => (Done (false, Some err), [CallHttpGet])
  | (false, None) => (Done (false, None), [CallHttpGet])
  | (true, None) =>
      match scheduleResult (destinations_rows w) (DestinationID booking)
                           (LaunchDate booking) with
      | (_, Some err) =>
          (Done (false, Some err), [CallHttpGet; CallQueryDestinations])
      | (false, None) => (Done (false, None), [CallHttpGet; CallQueryDestinations])
      | (true, None) => (Done (true, None), [CallHttpGet; CallQueryDestinations])
      end
  end.
Proof.
  intros H. unfold validateBooking. rewrite H.
  unfold mbind, IO_mbind, IO_bind.
  rewrite CheckLaunchpadAvailability_run. fold (feedResult (spacex_feed w)
    (LaunchpadID booking) (LaunchDate booking)).
  destruct (feedResult _ _ _) as [[|] [err|]]; try reflexivity.
  cbn [negb]. cbv beta iota. rewrite CheckDestinationSchedule_run.
  by destruct (scheduleResult _ _ _) as [[|] [err|]].
Qed.

(** [Validate] labels the returns of [validateBooking] and changes nothing
    else: the two make the same calls, and [Accepted] is [(true, nil)], a
    site conflict or a rotation mismatch is [(false, nil)], missing fields
    or an upstream failure is [false] with an error. *)
Lemma Validate_labels_validateBooking (booking : Booking) (w : World) :
  (Validate booking w).2 = (validateBooking booking w).2 ∧
  match (Validate booking w).1, (validateBooking booking w).1 with
  | Done Accepted, Done (true, None) => True
  | Done (Rejected LaunchSiteConflict), Done (false, None) => True
  | Done (Rejected DestinationRotationMismatch), Done (false, None) => True
  | Done (Rejected MissingFields), Done (false, Some _) => True
  | Done (Rejected UpstreamError), Done (false, Some _) => True
  | _, _ => False
  end.
Proof.
  destruct (IsZero (LaunchDate booking) || IsZero (Birthday booking)) eqn:H.
  - by rewrite Validate_zero, validateBooking_zero.
  - rewrite Validate_present, validateBooking_present by done.
    destruct (feedResult _ _ _) as [[|] [err|]]; try done.
    by destruct (scheduleResult _ _ _) as [[|] [err|]].
Qed.

Lemma scanLaunches_cases (launchpadID : string) (launchDate : Time)
    (launches : list Launch) :
  scanLaunches launchpadID launchDate launches = (true, None) ∨
  scanLaunches launchpadID launchDate launches = (false, None).
Proof.
  induction launches as [|launch rest IH]; simpl; [by left|].
  destruct (time_Parse_RFC3339 (DateLocal launch)); [|done].
  destruct (_ && _); [by right|done].
Qed.

Lemma scanLaunches_conflict_iff (launchpadID : string) (launchDate : Time)
    (launches : list Launch) :
  scanLaunches launchpadID launchDate launches = (false, None) ↔
  ∃ launch dateLocal,
    launch ∈ launches ∧
    time_Parse_RFC3339 (DateLocal launch) = Some dateLocal ∧
    Launchpad launch = launchpadID ∧
    Date_of dateLocal = Date_of launchDate.
Proof.
  induction launches as [|launch rest IH]; simpl.
  - split; [done|]. intros (launch & t & Hin & _). by apply elem_of_nil in Hin.
  - destruct (time_Parse_RFC3339 (DateLocal launch)) as [dateLocal|] eqn:Hparse.
    + destruct (String.eqb_spec (Launchpad launch) launchpadID) as [Hpad | Hpad];
        [destruct (String.eqb_spec (Format_date dateLocal) (Format_date launchDate))
           as [Hfmt | Hfmt]|]; simpl.
      * split; [|done]. intros _. exists launch, dateLocal.
        split; [apply elem_of_cons; by left|].
        by rewrite <- Format_date_inj.
      * rewrite IH. split.
        -- intros (l & t & Hin & H). exists l, t. split; [|done].
           apply elem_of_cons. by right.
        -- intros (l & t & Hin & Hp & Hl & Hd).
           apply elem_of_cons in Hin as [-> | Hin]; [|by exists l, t].
           rewrite Hparse in Hp. injection Hp as ->.
           by apply Format_date_inj in Hd.
      * rewrite IH. split.
        -- intros (l & t & Hin & H). exists l, t. split; [|done].
           apply elem_of_cons. by right.
        -- intros (l & t & Hin & Hp & Hl & Hd).
           apply elem_of_cons in Hin as [-> | Hin]; [done|by exists l, t].
    + rewrite IH. split.
      * intros (l & t & Hin & H). exists l, t. split; [|done].
        apply elem_of_cons. by right.
      * intros (l & t & Hin & Hp & Hl & Hd).
        apply elem_of_cons in Hin as [-> | Hin]; [congruence|by exists l, t].
Qed.

Lemma scanLaunches_free_iff (launchpadID : string) (launchDate : Time)
    (launches : list Launch) :
  scanLaunches launchpadID launchDate launches = (true, None) ↔
  ¬ ∃ launch dateLocal,
      launch ∈ launches ∧
      time_Parse_RFC3339 (DateLocal launch) = Some dateLocal ∧
      Launchpad launch = launchpadID ∧
      Date_of dateLocal = Date_of launchDate.
Proof.
  rewrite <- scanLaunches_conflict_iff.
  destruct (scanLaunches_cases launchpadID launchDate launches) as [-> | ->];
    split; congruence.
Qed.

(** The scan does not see records whose timestamp does not parse. *)
Lemma scanLaunches_skips_unparseable (launchpadID : string) (launchDate : Time)
    (launches : list Launch) :
  scanLaunches launchpadID launchDate launches =
  scanLaunches launchpadID launchDate
    (filter (λ launch, is_Some (time_Parse_RFC3339 (DateLocal launch))) launches).
Proof.
  induction launches as [|launch rest IH]; [done|].
  rewrite filter_cons. simpl.
  destruct (time_Parse_RFC3339 (DateLocal launch)) as [dateLocal|] eqn:Hparse.
  - rewrite decide_True by done. simpl. rewrite Hparse. by rewrite IH.
  - rewrite decide_False; [done|]. by intros [? ?].
Qed.

Lemma CreateBookingHandler_error (booking : Booking) (w : World)
    (valid : bool) (err : error) (calls : list Call) :
  validateBooking booking w = (Done (valid, Some err), calls) →
  CreateBookingHandler (Some booking) w =
  (Done (http_Error "Internal Server Error" StatusInternalServerError), calls).
Proof.
  intros H. unfold CreateBookingHandler, mbind, IO_mbind, IO_bind.
  rewrite H. simpl. by rewrite app_nil_r.
Qed.

Lemma CreateBookingHandler_invalid (booking : Booking) (w : World)
    (calls : list Call) :
  validateBooking booking w = (Done (false, None), calls) →
  CreateBookingHandler (Some booking) w =
  (Done (http_Error "Flight is cancelled due to scheduling conflicts."
                    StatusBadRequest), calls).
Proof.
  intros H. unfold CreateBookingHandler, mbind, IO_mbind, IO_bind.
  rewrite H. simpl. by rewrite app_nil_r.
Qed.

Lemma IsZero_orb_false (t1 t2 : Time) :
  IsZero t1 = false → IsZero t2 = false → IsZero t1 || IsZero t2 = false.
Proof. by intros -> ->. Qed.

(** ** The destination rotation *)

(** C1. For a non-empty destination list the rotation check takes the
    weekday of the launch date counted from Monday = 0 to Sunday = 6, the
    index [weekday mod len(destinationIDs)], and returns [true] exactly when
    the requested destination is the identifier at that index; [Validate]
    then accepts, and otherwise rejects with [DestinationRotationMismatch].
    For destinations 1..7 and 2049-12-25 the expected destination is 6. *)
Theorem destination_rotation_check
    (destinationIDs : list Z) (destinationID : Z) (launchpadID : string)
    (launchDate : Time) (w : World) :
  destinationIDs ≠ [] →
  destinations_rows w = Rows destinationIDs →
  ((Weekday launchDate = Monday ∧ rotationWeekday launchDate = 0) ∨
   (Weekday launchDate = Tuesday ∧ rotationWeekday launchDate = 1) ∨
   (Weekday launchDate = Wednesday ∧ rotationWeekday launchDate = 2) ∨
   (Weekday launchDate = Thursday ∧ rotationWeekday launchDate = 3) ∨
   (Weekday launchDate = Friday ∧ rotationWeekday launchDate = 4) ∨
   (Weekday launchDate = Saturday ∧ rotationWeekday launchDate = 5) ∨
   (Weekday launchDate = Sunday ∧ rotationWeekday launchDate = 6)) ∧
  rotationIndex launchDate destinationIDs =
    rotationWeekday launchDate mod Z.of_nat (length destinationIDs) ∧
  ∃ expected,
    destinationIDs !! Z.to_nat (rotationIndex launchDate destinationIDs)
      = Some expected ∧
    (CheckDestinationSchedule destinationID launchpadID launchDate w).1 =
      Done (bool_decide (destinationID = expected), None) ∧
    (∀ booking,
        LaunchDate booking = launchDate →
        DestinationID booking = destinationID →
        IsZero (LaunchDate booking) = false →
        IsZero (Birthday booking) = false →
        (CheckLaunchpadAvailability (LaunchpadID booking) launchDate w).1
          = Done (true, None) →
        (Validate booking w).1 =
          Done (if bool_decide (destinationID = expected)
                then Accepted
                else Rejected DestinationRotationMismatch)) ∧
    (launchDate = testLaunchDate →
     Date_of launchDate = (2049, 12, 25) ∧
     Weekday launchDate = Saturday ∧
     (destinationIDs = weekDestinations → expected = 6)).
Proof.
  intros Hne Hrows. split; [|split].
  - pose proof (Weekday_range launchDate) as Hw.
    unfold rotationWeekday, Monday, Tuesday, Wednesday, Thursday, Friday,
      Saturday, Sunday.
    assert (Weekday launchDate = 0 ∨ Weekday launchDate = 1 ∨
            Weekday launchDate = 2 ∨ Weekday launchDate = 3 ∨
            Weekday launchDate = 4 ∨ Weekday launchDate = 5 ∨
            Weekday launchDate = 6) as Hcases by lia.
    destruct Hcases as [E|[E|[E|[E|[E|[E|E]]]]]]; rewrite E; simpl; tauto.
  - unfold rotationIndex. pose proof (rotationWeekday_range launchDate).
    apply Z.rem_mod_nonneg; [lia|].
    destruct destinationIDs; [done|simpl; lia].
  - destruct (CheckDestinationSchedule_nonempty destinationID launchpadID
                launchDate w destinationIDs Hrows Hne)
      as (expected & Hlook & Hrun).
    exists expected. split; [done|]. split; [by rewrite Hrun|]. split.
    + intros booking Hdate Hdest Hz1 Hz2 Hfree.
      rewrite CheckLaunchpadAvailability_run in Hfree. simpl in Hfree.
      injection Hfree as Hfree.
      rewrite Validate_present by (by apply IsZero_orb_false).
      rewrite Hdate, Hfree, Hdest. unfold scheduleResult. rewrite Hrows, Hlook.
      by destruct (bool_decide (destinationID = expected)).
    + intros ->. split; [reflexivity|]. split; [reflexivity|].
      intros ->. vm_compute in Hlook. by injection Hlook as <-.
Qed.

Lemma destination_rotation_check_witness :
  weekDestinations ≠ [] ∧
  (CheckDestinationSchedule 6 "test_launchpad" testLaunchDate
     (mockWorld (Decoded []) (Rows weekDestinations))).1 = Done (true, None) ∧
  (Validate (setDestinationID testBooking 6)
     (mockWorld (Decoded []) (Rows weekDestinations))).1 = Done Accepted ∧
  (Validate (setDestinationID testBooking 1)
     (mockWorld (Decoded []) (Rows weekDestinations))).1
    = Done (Rejected DestinationRotationMismatch).
Proof.
  split; [discriminate|].
  destruct (destination_rotation_check weekDestinations 6 "test_launchpad"
              testLaunchDate (mockWorld (Decoded []) (Rows weekDestinations)))
    as (_ & _ & expected & _ & Hrun & Hvalid & Hsix);
    [discriminate|reflexivity|].
  destruct (destination_rotation_check weekDestinations 1 "test_launchpad"
              testLaunchDate (mockWorld (Decoded []) (Rows weekDestinations)))
    as (_ & _ & expected' & _ & _ & Hvalid' & Hsix');
    [discriminate|reflexivity|].
  destruct (Hsix eq_refl) as (_ & _ & Hsix6).
  destruct (Hsix' eq_refl) as (_ & _ & Hsix6').
  rewrite (Hsix6 eq_refl) in Hrun, Hvalid.
  rewrite (Hsix6' eq_refl) in Hvalid'.
  split; [exact Hrun|]. split.
  - apply (Hvalid (setDestinationID testBooking 6)); reflexivity.
  - apply (Hvalid' (setDestinationID testBooking 1)); reflexivity.
Defined.

(** C10. [CheckDestinationSchedule] never panics on its index expression:
    an empty list is answered with an error before the index is computed,
    and for a non-empty list the weekday lies in 0..6 and the index in
    [0, len(destinationIDs)). [validateBooking] does not panic either. *)
Theorem destination_index_in_bounds
    (destinationID : Z) (launchpadID : string) (launchDate : Time) (w : World) :
  (CheckDestinationSchedule destinationID launchpadID launchDate w).1 ≠ Panic ∧
  (destinations_rows w = Rows [] →
   CheckDestinationSchedule destinationID launchpadID launchDate w =
   (Done (false, Some (fmt_Errorf "no destinations available")),
    [CallQueryDestinations])) ∧
  (∀ destinationIDs,
     destinations_rows w = Rows destinationIDs →
     destinationIDs ≠ [] →
     0 ≤ rotationWeekday launchDate ≤ 6 ∧
     0 ≤ rotationIndex launchDate destinationIDs
       < Z.of_nat (length destinationIDs) ∧
     index_slice destinationIDs (rotationIndex launchDate destinationIDs) w
       ≠ (Panic, [])) ∧
  (∀ booking, (validateBooking booking w).1 ≠ Panic).
Proof.
  split; [by rewrite CheckDestinationSchedule_run|]. split; [|split].
  - intros Hrows. rewrite CheckDestinationSchedule_run. by rewrite Hrows.
  - intros destinationIDs Hrows Hne.
    split; [apply rotationWeekday_range|].
    pose proof (rotationIndex_range launchDate destinationIDs Hne) as Hidx.
    split; [done|].
    destruct (index_slice_in_range destinationIDs _ w Hidx) as (x & _ & ->).
    done.
  - intros booking.
    destruct (IsZero (LaunchDate booking) || IsZero (Birthday booking)) eqn:H.
    + by rewrite validateBooking_zero.
    + rewrite validateBooking_present by done.
      destruct (feedResult _ _ _) as [[|] [err|]]; try done.
      by destruct (scheduleResult _ _ _) as [[|] [err|]].
Qed.

Lemma destination_index_in_bounds_witness :
  0 ≤ rotationIndex testLaunchDate weekDestinations < 7 ∧
  CheckDestinationSchedule 6 "test_launchpad" testLaunchDate
    (mockWorld (Decoded []) (Rows [])) =
  (Done (false, Some (fmt_Errorf "no destinations available")),
   [CallQueryDestinations]).
Proof.
  destruct (destination_index_in_bounds 6 "test_launchpad" testLaunchDate
              (mockWorld (Decoded []) (Rows weekDestinations)))
    as (_ & _ & Hidx & _).
  destruct (Hidx weekDestinations) as (_ & Hrange & _);
    [reflexivity|discriminate|].
  split; [exact Hrange|].
  apply (destination_index_in_bounds 6 "test_launchpad" testLaunchDate
           (mockWorld (Decoded []) (Rows []))).
  reflexivity.
Defined.

(** ** The launch-site check *)

(** C3, as stated, fails: the feed holds a record for the requested site
    on the requested date, yet a request without a birthday is rejected
    with [MissingFields], not with [LaunchSiteConflict]. *)
Lemma site_conflict_any_fields_counterexample :
  testLaunch ∈ [testLaunch] ∧
  time_Parse_RFC3339 (DateLocal testLaunch) = Some testLaunchDate ∧
  Launchpad testLaunch = LaunchpadID bookingWithoutBirthday ∧
  Date_of testLaunchDate = Date_of (LaunchDate bookingWithoutBirthday) ∧
  (Validate bookingWithoutBirthday
     (mockWorld (Decoded [testLaunch]) (Rows weekDestinations))).1
    = Done (Rejected MissingFields) ∧
  (Validate bookingWithoutBirthday
     (mockWorld (Decoded [testLaunch]) (Rows weekDestinations))).1
    ≠ Done (Rejected LaunchSiteConflict).
Proof.
  split; [apply list_elem_of_here|].
  repeat split; try (vm_compute; reflexivity). vm_compute. discriminate.
Qed.

(** C3, amended. When launch date and birthday are present, a feed record
    that parses, names the requested site and falls on the calendar day of
    the requested launch date makes [Validate] reject with
    [LaunchSiteConflict] after the feed call alone, whatever the other
    fields of the request and whatever the destination store holds. *)
Theorem site_conflict_rejected
    (booking : Booking) (w : World) (launches : list Launch)
    (launch : Launch) (dateLocal : Time) :
  spacex_feed w = Decoded launches →
  launch ∈ launches →
  time_Parse_RFC3339 (DateLocal launch) = Some dateLocal →
  Launchpad launch = LaunchpadID booking →
  Date_of dateLocal = Date_of (LaunchDate booking) →
  IsZero (LaunchDate booking) = false →
  IsZero (Birthday booking) = false →
  Validate booking w = (Done (Rejected LaunchSiteConflict), [CallHttpGet]) ∧
  validateBooking booking w = (Done (false, None), [CallHttpGet]).
Proof.
  intros Hfeed Hin Hparse Hpad Hday Hz1 Hz2.
  assert (scanLaunches (LaunchpadID booking) (LaunchDate booking) launches
          = (false, None)) as Hscan.
  { apply scanLaunches_conflict_iff. by exists launch, dateLocal. }
  rewrite Validate_present, validateBooking_present by (by apply IsZero_orb_false).
  rewrite Hfeed. simpl. by rewrite Hscan.
Qed.

Lemma site_conflict_rejected_witness :
  Validate testBooking (mockWorld (Decoded [testLaunch]) (Rows weekDestinations))
  = (Done (Rejected LaunchSiteConflict), [CallHttpGet]).
Proof.
  apply (site_conflict_rejected testBooking
           (mockWorld (Decoded [testLaunch]) (Rows weekDestinations))
           [testLaunch] testLaunch testLaunchDate).
  - reflexivity.
  - apply list_elem_of_here.
  - vm_compute. reflexivity.
  - reflexivity.
  - reflexivity.
  - vm_compute. reflexivity.
  - vm_compute. reflexivity.
Defined.

(** C4, as stated, fails: the record of [eveningLaunch] and the request
    for [nextDay] fall on the same calendar day once both are taken to one
    time zone, be it UTC, the zone of the request or the zone of the record,
    and the site is the same; yet the check finds the site available. *)
Lemma site_check_normalized_day_counterexample :
  time_Parse_RFC3339 (DateLocal eveningLaunch) = Some eveningTime ∧
  Launchpad eveningLaunch = "test_launchpad"%string ∧
  Date_of (UTC eveningTime) = Date_of (UTC nextDay) ∧
  Date_of (In_zone eveningTime (t_offset nextDay)) = Date_of nextDay ∧
  Date_of eveningTime = Date_of (In_zone nextDay (t_offset eveningTime)) ∧
  CheckLaunchpadAvailability "test_launchpad" nextDay
    (mockWorld (Decoded [eveningLaunch]) (Rows weekDestinations))
  = (Done (true, None), [CallHttpGet]).
Proof. repeat split; vm_compute; reflexivity. Qed.

(** C4, amended. For a decoded feed the site check answers "unavailable"
    exactly when some record parses, names the requested site, and shows
    the same year, month and day on its own wall clock (the date as written
    in the record, at the record's own offset) as the requested launch date
    shows on its own; no time zone is converted.  Otherwise it answers
    "available". *)
Theorem site_check_same_written_day
    (launchpadID : string) (launchDate : Time) (w : World)
    (launches : list Launch) :
  spacex_feed w = Decoded launches →
  ((CheckLaunchpadAvailability launchpadID launchDate w).1 = Done (false, None) ↔
   ∃ launch dateLocal,
     launch ∈ launches ∧
     time_Parse_RFC3339 (DateLocal launch) = Some dateLocal ∧
     Launchpad launch = launchpadID ∧
     Date_of dateLocal = Date_of launchDate) ∧
  ((CheckLaunchpadAvailability launchpadID launchDate w).1 = Done (true, None) ↔
   ¬ ∃ launch dateLocal,
       launch ∈ launches ∧
       time_Parse_RFC3339 (DateLocal launch) = Some dateLocal ∧
       Launchpad launch = launchpadID ∧
       Date_of dateLocal = Date_of launchDate) ∧
  (∀ t1 t2, Format_date t1 = Format_date t2 ↔ Date_of t1 = Date_of t2).
Proof.
  intros Hfeed. rewrite CheckLaunchpadAvailability_run, Hfeed. simpl.
  split; [|split].
  - rewrite <- scanLaunches_conflict_iff.
    split; [by intros [= ->]|by intros ->].
  - rewrite <- scanLaunches_free_iff.
    split; [by intros [= ->]|by intros ->].
  - apply Format_date_inj.
Qed.

Lemma site_check_same_written_day_witness :
  (CheckLaunchpadAvailability "test_launchpad" testLaunchDate
     (mockWorld (Decoded [eveningLaunch]) (Rows weekDestinations))).1
  = Done (false, None).
Proof.
  apply (site_check_same_written_day "test_launchpad" testLaunchDate
           (mockWorld (Decoded [eveningLaunch]) (Rows weekDestinations))
           [eveningLaunch]); [reflexivity|].
  exists eveningLaunch, eveningTime.
  split; [apply list_elem_of_here|].
  repeat split; vm_compute; reflexivity.
Defined.

(** ** Upstream failures *)

(** C5, as stated, fails for some requests: with the feed down, a request
    without a birthday is rejected with [MissingFields]; and with an empty
    destination list, a request whose site is taken on that day is rejected
    with [LaunchSiteConflict].  Neither outcome is [UpstreamError]. *)
Lemma upstream_error_every_request_counterexample :
  feedFailed feedDown ∧
  (Validate bookingWithoutBirthday (mockWorld feedDown (Rows weekDestinations))).1
    = Done (Rejected MissingFields) ∧
  (Validate testBooking (mockWorld (Decoded [testLaunch]) (Rows []))).1
    = Done (Rejected LaunchSiteConflict).
Proof. split; [exact I|]. split; vm_compute; reflexivity. Qed.

(** C5, amended. When the feed fetch fails or the destination list is
    empty, [Validate] never accepts.  The outcome is [UpstreamError] when
    the request has both dates and the feed fetch fails, and when the
    request has both dates, the site check passes and the destination list
    is empty.  (A request without its dates is rejected with
    [MissingFields] before, and a site conflict is reported before the
    destination list is read.) *)
Theorem upstream_failure_fails_closed (booking : Booking) (w : World) :
  feedFailed (spacex_feed w) ∨ destinations_rows w = Rows [] →
  (Validate booking w).1 ≠ Done Accepted ∧
  (validateBooking booking w).1 ≠ Done (true, None) ∧
  (IsZero (LaunchDate booking) = false → IsZero (Birthday booking) = false →
   feedFailed (spacex_feed w) →
   Validate booking w = (Done (Rejected UpstreamError), [CallHttpGet])) ∧
  (IsZero (LaunchDate booking) = false → IsZero (Birthday booking) = false →
   (CheckLaunchpadAvailability (LaunchpadID booking) (LaunchDate booking) w).1
     = Done (true, None) →
   destinations_rows w = Rows [] →
   Validate booking w =
   (Done (Rejected UpstreamError), [CallHttpGet; CallQueryDestinations])).
Proof.
  intros Hdown.
  assert ((Validate booking w).1 ≠ Done Accepted) as Hnot.
  { destruct (IsZero (LaunchDate booking) || IsZero (Birthday booking)) eqn:H.
    - by rewrite Validate_zero.
    - rewrite Validate_present by done.
      destruct Hdown as [Hfeed | Hrows].
      + by destruct (spacex_feed w).
      + destruct (feedResult _ _ _) as [[|] [err|]]; try done.
        by rewrite Hrows. }
  split; [exact Hnot|]. split; [|split].
  - pose proof (Validate_labels_validateBooking booking w) as [_ Hlab].
    intros Hacc. rewrite Hacc in Hlab.
    destruct (Validate booking w).1 as [[|[]]|]; done.
  - intros Hz1 Hz2 Hfeed.
    rewrite Validate_present by (by apply IsZero_orb_false).
    by destruct (spacex_feed w).
  - intros Hz1 Hz2 Hfree Hrows.
    rewrite CheckLaunchpadAvailability_run in Hfree. injection Hfree as Hfree.
    rewrite Validate_present by (by apply IsZero_orb_false).
    by rewrite Hfree, Hrows.
Qed.

Lemma upstream_failure_fails_closed_witness :
  Validate testBooking (mockWorld feedDown (Rows weekDestinations))
    = (Done (Rejected UpstreamError), [CallHttpGet]) ∧
  Validate testBooking (mockWorld (Decoded []) (Rows []))
    = (Done (Rejected UpstreamError), [CallHttpGet; CallQueryDestinations]).
Proof.
  split.
  - apply (upstream_failure_fails_closed testBooking
             (mockWorld feedDown (Rows weekDestinations)));
      [left; exact I|vm_compute; reflexivity|vm_compute; reflexivity|exact I].
  - apply (upstream_failure_fails_closed testBooking
             (mockWorld (Decoded []) (Rows [])));
      [right; reflexivity|vm_compute; reflexivity|vm_compute; reflexivity
      |reflexivity|reflexivity].
Defined.

(** ** Records that do not parse *)

(** C6. Records whose timestamp does not parse are passed over: the site
    check, [validateBooking] and [Validate] give the same result on a feed
    and on that feed without its unparseable records; a record that does
    not parse is never the conflict; and when no parseable record matches
    site and day the site check passes and the request is accepted once the
    rotation check passes too, whatever unparseable records the feed
    holds. *)
Theorem unparseable_records_skipped
    (booking : Booking) (launches : list Launch) (rows : RowsResult)
    (insert : Booking → error + Z) :
  let w := mkWorld (Decoded launches) rows insert in
  let w' :=
    mkWorld (Decoded (filter (λ launch,
                                is_Some (time_Parse_RFC3339 (DateLocal launch)))
                             launches)) rows insert in
  CheckLaunchpadAvailability (LaunchpadID booking) (LaunchDate booking) w =
    CheckLaunchpadAvailability (LaunchpadID booking) (LaunchDate booking) w' ∧
  validateBooking booking w = validateBooking booking w' ∧
  Validate booking w = Validate booking w' ∧
  ((∀ launch, launch ∈ launches →
      time_Parse_RFC3339 (DateLocal launch) = None) →
   (CheckLaunchpadAvailability (LaunchpadID booking) (LaunchDate booking) w).1
     = Done (true, None)) ∧
  ((∀ launch dateLocal,
      launch ∈ launches →
      time_Parse_RFC3339 (DateLocal launch) = Some dateLocal →
      ¬ (Launchpad launch = LaunchpadID booking ∧
         Date_of dateLocal = Date_of (LaunchDate booking))) →
   (CheckLaunchpadAvailability (LaunchpadID booking) (LaunchDate booking) w).1
     = Done (true, None) ∧
   (IsZero (LaunchDate booking) = false → IsZero (Birthday booking) = false →
    (CheckDestinationSchedule (DestinationID booking) (LaunchpadID booking)
       (LaunchDate booking) w).1 = Done (true, None) →
    (Validate booking w).1 = Done Accepted)).
Proof.
  intros w w'.
  assert (feedResult (spacex_feed w) (LaunchpadID booking) (LaunchDate booking) =
          feedResult (spacex_feed w') (LaunchpadID booking) (LaunchDate booking))
    as Hsame by apply scanLaunches_skips_unparseable.
  split; [by rewrite !CheckLaunchpadAvailability_run, Hsame|].
  split; [|split; [|split]].
  - destruct (IsZero (LaunchDate booking) || IsZero (Birthday booking)) eqn:H.
    + by rewrite !validateBooking_zero.
    + by rewrite !validateBooking_present, Hsame.
  - destruct (IsZero (LaunchDate booking) || IsZero (Birthday booking)) eqn:H.
    + by rewrite !Validate_zero.
    + by rewrite !Validate_present, Hsame.
  - intros Hnone. rewrite CheckLaunchpadAvailability_run. simpl. f_equal.
    apply scanLaunches_free_iff. intros (launch & t & Hin & Hparse & _).
    rewrite (Hnone launch Hin) in Hparse. discriminate.
  - intros Hfree.
    assert (scanLaunches (LaunchpadID booking) (LaunchDate booking) launches
            = (true, None)) as Hscan.
    { apply scanLaunches_free_iff. intros (launch & t & Hin & Hparse & Hpad & Hday).
      by apply (Hfree launch t). }
    split; [by rewrite CheckLaunchpadAvailability_run; simpl; rewrite Hscan|].
    intros Hz1 Hz2 Hdest.
    rewrite CheckDestinationSchedule_run in Hdest. injection Hdest as Hdest.
    rewrite Validate_present by (by apply IsZero_orb_false).
    simpl. by rewrite Hscan, Hdest.
Qed.

Lemma unparseable_records_skipped_witness :
  (Validate (setDestinationID testBooking 6)
     (mkWorld (Decoded [invalidLaunch]) (Rows weekDestinations) (λ _, inr 1))).1
  = Done Accepted.
Proof.
  destruct (unparseable_records_skipped (setDestinationID testBooking 6)
              [invalidLaunch] (Rows weekDestinations) (λ _, inr 1))
    as (_ & _ & _ & _ & Hfree).
  apply Hfree.
  - intros launch dateLocal Hin Hparse.
    apply list_elem_of_singleton in Hin. subst launch.
    vm_compute in Hparse. discriminate.
  - vm_compute. reflexivity.
  - vm_compute. reflexivity.
  - vm_compute. reflexivity.
Defined.

(** ** Missing fields *)

(** C7, as stated, fails in its second half: the response to a request
    without a birthday is the very response given when the feed is down. *)
Lemma missing_fields_response_counterexample :
  (Validate bookingWithoutBirthday
     (mockWorld (Decoded []) (Rows weekDestinations))).1
    = Done (Rejected MissingFields) ∧
  (Validate testBooking (mockWorld feedDown (Rows weekDestinations))).1
    = Done (Rejected UpstreamError) ∧
  (CreateBookingHandler (Some bookingWithoutBirthday)
     (mockWorld (Decoded []) (Rows weekDestinations))).1
  = (CreateBookingHandler (Some testBooking)
       (mockWorld feedDown (Rows weekDestinations))).1.
Proof. repeat split; vm_compute; reflexivity. Qed.

(** C7, amended. A request whose launch date or birthday is the zero time
    is rejected with [MissingFields] without any call to the feed, the
    destination store or the booking store.  The handler answers it with
    status 500 and the text "Internal Server Error", which is also its answer
    to every upstream failure; only the answer to a site conflict or a
    rotation mismatch, status 400, differs from it. *)
Theorem missing_fields_rejected_first (booking : Booking) (w : World) :
  IsZero (LaunchDate booking) = true ∨ IsZero (Birthday booking) = true →
  Validate booking w = (Done (Rejected MissingFields), []) ∧
  validateBooking booking w =
    (Done (false, Some (fmt_Errorf "launch date and birthday must be provided")),
     []) ∧
  CreateBookingHandler (Some booking) w =
    (Done (http_Error "Internal Server Error" StatusInternalServerError), []) ∧
  (∀ booking' w',
     (Validate booking' w').1 = Done (Rejected UpstreamError) →
     (CreateBookingHandler (Some booking') w').1 =
     Done (http_Error "Internal Server Error" StatusInternalServerError)) ∧
  (∀ booking' w',
     (Validate booking' w').1 = Done (Rejected LaunchSiteConflict) ∨
     (Validate booking' w').1 = Done (Rejected DestinationRotationMismatch) →
     (CreateBookingHandler (Some booking') w').1 =
     Done (http_Error "Flight is cancelled due to scheduling conflicts."
                      StatusBadRequest)).
Proof.
  intros Hzero.
  assert (IsZero (LaunchDate booking) || IsZero (Birthday booking) = true) as H.
  { apply orb_true_iff. tauto. }
  split; [by apply Validate_zero|].
  split; [by apply validateBooking_zero|].
  split; [by eapply CreateBookingHandler_error, validateBooking_zero|].
  split.
  - intros booking' w' Hup.
    pose proof (Validate_labels_validateBooking booking' w') as [_ Hlab].
    rewrite Hup in Hlab.
    destruct (validateBooking booking' w') as [[[valid [err|]]|] calls] eqn:Hv;
      simpl in Hlab; try done; try (by destruct valid).
    by rewrite (CreateBookingHandler_error _ _ _ _ _ Hv).
  - intros booking' w' Hrej.
    pose proof (Validate_labels_validateBooking booking' w') as [_ Hlab].
    destruct (validateBooking booking' w') as [[[valid [err|]]|] calls] eqn:Hv;
      simpl in Hlab.
    + destruct Hrej as [Hr | Hr]; rewrite Hr in Hlab; by destruct valid.
    + destruct valid.
      * destruct Hrej as [Hr | Hr]; by rewrite Hr in Hlab.
      * by rewrite (CreateBookingHandler_invalid _ _ _ Hv).
    + destruct Hrej as [Hr | Hr]; by rewrite Hr in Hlab.
Qed.

Lemma missing_fields_rejected_first_witness :
  Validate bookingWithoutBirthday (mockWorld feedDown (QueryFailed (errorString "down")))
  = (Done (Rejected MissingFields), []).
Proof.
  apply (missing_fields_rejected_first bookingWithoutBirthday
           (mockWorld feedDown (QueryFailed (errorString "down")))).
  right. vm_compute. reflexivity.
Defined.

(** ** Determinism *)

(** C9. Two runs of the validation on the same request, against worlds
    whose feed answers the same and whose destination store answers the
    same, give the same result and make the same calls, whatever else
    differs between the worlds. *)
Theorem validate_deterministic (booking : Booking) (w1 w2 : World) :
  spacex_feed w1 = spacex_feed w2 →
  destinations_rows w1 = destinations_rows w2 →
  Validate booking w1 = Validate booking w2 ∧
  validateBooking booking w1 = validateBooking booking w2.
Proof.
  intros Hfeed Hrows.
  destruct (IsZero (LaunchDate booking) || IsZero (Birthday booking)) eqn:H.
  - by rewrite !Validate_zero, !validateBooking_zero.
  - by rewrite !Validate_present, !validateBooking_present, Hfeed, Hrows.
Qed.

Lemma validate_deterministic_witness :
  Validate testBooking
    (mkWorld (Decoded [testLaunch]) (Rows weekDestinations) (λ _, inr 1))
  = Validate testBooking
      (mkWorld (Decoded [testLaunch]) (Rows weekDestinations)
               (λ _, inl (errorString "insert failed"))).
Proof.
  apply (validate_deterministic testBooking
           (mkWorld (Decoded [testLaunch]) (Rows weekDestinations) (λ _, inr 1))
           (mkWorld (Decoded [testLaunch]) (Rows weekDestinations)
                    (λ _, inl (errorString "insert failed"))));
    reflexivity.
Defined.

(** ** Facts about the limiter *)

(** The middleware lets a request through to [next] exactly when the
    admission step says so, and keeps the registry that step returns. *)
Lemma rateLimitMiddleware_visitorAllow (next : Request → IO Response) (now : Z)
    (r : Request) (visitors : gmap string Limiter) :
  rateLimitMiddleware next now r visitors =
  (if (visitorAllow (RemoteAddr r) now visitors).1
   then next r
   else mret (http_Error "Too Many Requests" StatusTooManyRequests),
   (visitorAllow (RemoteAddr r) now visitors).2).
Proof.
  unfold rateLimitMiddleware, visitorAllow.
  destruct (getVisitor (RemoteAddr r) visitors) as [limiter visitors'].
  by destruct (Allow limiter now) as [[|] limiter'].
Qed.

Lemma visitorAllow_unfold (ip : string) (now : Z) (visitors : gmap string Limiter) :
  visitorAllow ip now visitors =
  ((Allow (limiterOf ip visitors) now).1,
   <[ip := (Allow (limiterOf ip visitors) now).2]> visitors).
Proof.
  unfold visitorAllow, getVisitor, limiterOf.
  destruct (visitors !! ip) as [limiter|]; simpl.
  - by destruct (Allow limiter now).
  - destruct (Allow (NewLimiter (float64_of_int 1) 3) now). simpl.
    by rewrite insert_insert_eq.
Qed.


Lemma lookup_visitorAllow_other (ip ip' : string) (now : Z) (visitors : gmap string Limiter) :
  ip ≠ ip' → (visitorAllow ip now visitors).2 !! ip' = visitors !! ip'.
Proof. intros Hne. rewrite visitorAllow_unfold. simpl. by rewrite lookup_insert_ne. Qed.


Lemma Allow_denied_unchanged (lim : Limiter) (now : Z) :
  (Allow lim now).1 = false → (Allow lim now).2 = lim.
Proof.
  unfold Allow, reserveN. destruct (advance lim (Reading now)) as [t held].
  by destruct (_ && _).
Qed.

(** A request that passes leaves rate and burst as they were and sets
    [last] to the reading of the clock. *)
Lemma Allow_passed (lim : Limiter) (now : Z) :
  (Allow lim now).1 = true →
  limit (Allow lim now).2 = limit lim ∧
  burst (Allow lim now).2 = burst lim ∧
  last (Allow lim now).2 = Reading now.
Proof.
  unfold Allow, reserveN, advance. cbv zeta.
  by destruct (_ && _).
Qed.

(** A new limiter lets its first request pass, whatever the clock reads:
    the bucket is full. *)
Lemma Allow_fresh (now : Z) :
  Allow (NewLimiter (float64_of_int 1) 3) now =
  (true, mkLimiter (float64_of_int 1) 3 (float64_of_int 2) (Reading now)).
Proof. vm_compute. reflexivity. Qed.

Lemma limiterOf_empty (ip : string) : limiterOf ip ∅ = NewLimiter (float64_of_int 1) 3.
Proof. unfold limiterOf. by rewrite lookup_empty. Qed.

Lemma outcomesOf_cons (ip ip' : string) (now : Z) (rest : list (string * Z))
    (visitors : gmap string Limiter) :
  outcomesOf ip ((ip', now) :: rest) visitors =
  if decide (ip' = ip)
  then (Allow (limiterOf ip' visitors) now).1
         :: outcomesOf ip rest (visitorAllow ip' now visitors).2
  else outcomesOf ip rest (visitorAllow ip' now visitors).2.
Proof.
  simpl. pose proof (visitorAllow_unfold ip' now visitors) as HA.
  destruct (visitorAllow ip' now visitors) as [ok visitors']. by injection HA as -> _.
Qed.

Lemma admissions_cons (ip' : string) (now : Z) (rest : list (string * Z))
    (visitors : gmap string Limiter) :
  admissions ((ip', now) :: rest) visitors =
  ((visitorAllow ip' now visitors).1 :: (admissions rest (visitorAllow ip' now visitors).2).1,
   (admissions rest (visitorAllow ip' now visitors).2).2).
Proof.
  simpl. destruct (visitorAllow ip' now visitors) as [ok visitors']. simpl.
  by destruct (admissions rest visitors').
Qed.

(** Requests of other clients neither change what a client sees nor its
    bucket. *)
Lemma outcomesOf_without (a b : string) (events : list (string * Z)) :
  a ≠ b →
  ∀ visitors visitors' : gmap string Limiter,
    visitors !! b = visitors' !! b →
    outcomesOf b events visitors =
      outcomesOf b (filter (λ e, e.1 ≠ a) events) visitors' ∧
    (admissions events visitors).2 !! b =
      (admissions (filter (λ e, e.1 ≠ a) events) visitors').2 !! b.
Proof.
  intros Hab. induction events as [|[ip now] rest IH]; intros visitors visitors' Hb.
  - by simpl.
  - rewrite filter_cons. simpl fst.
    destruct (decide (ip ≠ a)) as [Hne | Heq].
    + rewrite !outcomesOf_cons, !admissions_cons. simpl snd.
      assert ((visitorAllow ip now visitors).2 !! b = (visitorAllow ip now visitors').2 !! b) as Hb'.
      { rewrite !visitorAllow_unfold. simpl. destruct (decide (ip = b)) as [-> | ?].
        - rewrite !lookup_insert_eq. unfold limiterOf. by rewrite Hb.
        - by rewrite !lookup_insert_ne. }
      destruct (IH _ _ Hb') as [IHo IHs]. split; [|done].
      destruct (decide (ip = b)) as [-> | ?]; [|done].
      unfold limiterOf. by rewrite Hb, IHo.
    + assert (ip = a) as -> by (by destruct (decide (ip = a)); [|destruct Heq]).
      rewrite outcomesOf_cons, admissions_cons. simpl snd.
      rewrite decide_False by done.
      apply IH. by rewrite lookup_visitorAllow_other.
Qed.





(** A denied request leaves the registry as it was. *)
Lemma visitorAllow_denied (ip : string) (t : Z) (visitors : gmap string Limiter) :
  (visitorAllow ip t visitors).1 = false → (visitorAllow ip t visitors).2 = visitors.
Proof.
  rewrite visitorAllow_unfold. simpl. intros Hno.
  rewrite (Allow_denied_unchanged _ _ Hno).
  destruct (visitors !! ip) as [lim|] eqn:Hlook.
  - apply insert_id. unfold limiterOf. by rewrite Hlook.
  - assert (limiterOf ip visitors = NewLimiter (float64_of_int 1) 3) as Hnew
      by (unfold limiterOf; by rewrite Hlook).
    rewrite Hnew, Allow_fresh in Hno. discriminate.
Qed.

(** ** Admission control *)




(** C8. Admission state is kept per client identity: a request of one
    identity leaves the bucket of every other identity untouched, and over
    any run of requests what a client is answered, and the bucket it ends
    with, are the same as in the run without the requests of another
    client. Identities are compared as strings, so two addresses that differ
    in the port only are two clients. *)
Theorem admission_independent (a b : string) :
  a ≠ b →
  ∀ (events : list (string * Z)) (visitors : gmap string Limiter),
    (∀ now, (visitorAllow a now visitors).2 !! b = visitors !! b) ∧
    outcomesOf b events visitors =
      outcomesOf b (filter (λ e, e.1 ≠ a) events) visitors ∧
    (admissions events visitors).2 !! b =
      (admissions (filter (λ e, e.1 ≠ a) events) visitors).2 !! b.
Proof.
  intros Hab events visitors. split.
  - intros now. by apply lookup_visitorAllow_other.
  - by apply outcomesOf_without.
Qed.

Lemma admission_independent_witness :
  clientA ≠ clientB ∧
  outcomesOf clientB
    [(clientA, 0); (clientA, 0); (clientA, 0); (clientA, 0); (clientB, 0);
     (clientA, 1); (clientB, 1); (clientB, 2); (clientB, 3)] ∅
  = outcomesOf clientB [(clientB, 0); (clientB, 1); (clientB, 2); (clientB, 3)] ∅.
Proof.
  split; [discriminate|].
  apply (admission_independent clientA clientB); discriminate.
Defined.

Lemma isLeap_cycles (year : Z) :
  let y := year - 1 in
  let r := y - 400 * (y / 400) in
  let r2 := r - 100 * (r / 100) in
  let n1 := r2 - 4 * (r2 / 4) in
  isLeap year = (n1 =? 3) && (negb (r2 / 4 =? 24) || (r / 100 =? 3)).
Proof.
  cbv zeta. unfold isLeap.
  destruct (Z.eqb_spec (year mod 4) 0), (Z.eqb_spec (year mod 100) 0),
    (Z.eqb_spec (year mod 400) 0);
    repeat match goal with |- context [?a =? ?b] => destruct (Z.eqb_spec a b) end;
    simpl; try reflexivity; exfalso;
    Z.to_euclidean_division_equations; lia.
Qed.

Lemma absYearDay_daysSinceEpoch (year yday : Z) :
  0 ≤ yday < daysInYear year →
  absYearDay (daysSinceEpoch year + yday) = (year, yday).
Proof.
  unfold daysInYear. rewrite isLeap_cycles. cbv zeta.
  unfold absYearDay, daysSinceEpoch, daysPer400Years, daysPer100Years, daysPer4Years.
  rewrite !Z.shiftr_div_pow2 by lia. change (2 ^ 2) with 4.
  intros H. cbv zeta.
  set (y := year - 1) in *.
  set (n400 := y / 400) in *.
  set (r := y - 400 * n400) in *.
  set (n100 := r / 100) in *.
  set (r2 := r - 100 * n100) in *.
  set (n4 := r2 / 4) in *.
  set (n1 := r2 - 4 * n4) in *.
  assert (0 ≤ r < 400) by (subst r n400; Z.to_euclidean_division_equations; lia).
  assert (0 ≤ n100 ≤ 3) by (subst n100; Z.to_euclidean_division_equations; lia).
  assert (0 ≤ r2 < 100) by (subst r2 n100; Z.to_euclidean_division_equations; lia).
  assert (0 ≤ n4 ≤ 24) by (subst n4; Z.to_euclidean_division_equations; lia).
  assert (0 ≤ n1 ≤ 3) by (subst n1 n4; Z.to_euclidean_division_equations; lia).
  assert (year = 400 * n400 + 100 * n100 + 4 * n4 + n1 + 1) as Hyear
    by (subst n1 r2 r y; lia).
  clearbody n1 n4 n100 n400. clear y r r2 H0 H2.
  assert (0 ≤ yday ≤ 365 ∧ (yday = 365 → n1 = 3 ∧ (n4 ≠ 24 ∨ n100 = 3))) as [Hy Hleap].
  { destruct (Z.eqb_spec n1 3), (Z.eqb_spec n4 24), (Z.eqb_spec n100 3);
      simpl in H; lia. }
  clear H.
  set (D := (365 * 400 + 97) * n400 + (365 * 100 + 24) * n100 + (365 * 4 + 1) * n4 +
            365 * n1 + yday).
  assert (D / (365 * 400 + 97) = n400) as E1
    by (subst D; Z.to_euclidean_division_equations; lia).
  rewrite E1.
  set (D1 := D - (365 * 400 + 97) * n400).
  assert (D1 = 36524 * n100 + 1461 * n4 + 365 * n1 + yday) as HD1 by (subst D1 D; lia).
  assert (D1 / (365 * 100 + 24) - D1 / (365 * 100 + 24) / 4 = n100) as E2.
  { rewrite HD1. Z.to_euclidean_division_equations. lia. }
  rewrite E2.
  set (D2 := D1 - (365 * 100 + 24) * n100).
  assert (D2 = 1461 * n4 + 365 * n1 + yday) as HD2 by (subst D2; lia).
  assert (D2 / (365 * 4 + 1) = n4) as E3.
  { rewrite HD2. Z.to_euclidean_division_equations. lia. }
  rewrite E3.
  set (D3 := D2 - (365 * 4 + 1) * n4).
  assert (D3 = 365 * n1 + yday) as HD3 by (subst D3; lia).
  assert (D3 / 365 - D3 / 365 / 4 = n1) as E4.
  { rewrite HD3. Z.to_euclidean_division_equations. lia. }
  rewrite E4. f_equal; lia.
Qed.

Lemma monthDayOf_yearDayOf (leap : bool) (month day : Z) :
  1 ≤ month ≤ 12 → 1 ≤ day ≤ daysInOf leap month →
  monthDayOf leap (yearDayOf leap month day) = (month, day) ∧
  0 ≤ yearDayOf leap month day < (if leap then 366 else 365).
Proof.
  intros Hm Hd.
  assert (day ≤ 31) as Hd31.
  { unfold daysInOf in Hd.
    assert (month = 1 ∨ month = 2 ∨ month = 3 ∨ month = 4 ∨ month = 5 ∨ month = 6 ∨
            month = 7 ∨ month = 8 ∨ month = 9 ∨ month = 10 ∨ month = 11 ∨
            month = 12) as Hcases by lia.
    repeat (destruct Hcases as [-> | Hcases]); try subst month;
      destruct leap; simpl in Hd; lia. }
  assert (monthDay_checked leap = true) as Hall
    by (destruct leap; vm_compute; reflexivity).
  unfold monthDay_checked in Hall.
  pose proof (forallb_below _ 13 Hall month ltac:(lia)) as Hmonth.
  cbv beta in Hmonth.
  pose proof (forallb_below _ 32 Hmonth day ltac:(lia)) as Hday.
  cbv beta in Hday.
  destruct (Z.leb_spec 1 month); [|lia].
  destruct (Z.leb_spec 1 day); [|lia].
  destruct (Z.leb_spec day (daysInOf leap month)); [|lia].
  simpl in Hday.
  destruct (monthDayOf leap (yearDayOf leap month day)) as [m d].
  apply andb_true_iff in Hday as [Hday Hhi].
  apply andb_true_iff in Hday as [Hday Hlo].
  apply andb_true_iff in Hday as [Hm' Hd'].
  apply Z.eqb_eq in Hm', Hd'. apply Z.leb_le in Hlo. apply Z.ltb_lt in Hhi.
  subst. split; [reflexivity|lia].
Qed.

Lemma yearDay_range (year month day : Z) :
  1 ≤ month ≤ 12 → 1 ≤ day ≤ daysIn month year →
  0 ≤ yearDay year month day < daysInYear year.
Proof.
  intros Hm Hd.
  apply (monthDayOf_yearDayOf (isLeap year) month day Hm Hd).
Qed.

Lemma monthDay_yearDay (year month day : Z) :
  1 ≤ month ≤ 12 → 1 ≤ day ≤ daysIn month year →
  monthDay year (yearDay year month day) = (month, day).
Proof.
  intros Hm Hd.
  apply (monthDayOf_yearDayOf (isLeap year) month day Hm Hd).
Qed.

(** The calendar round trip: the wall-clock date of the time that [Date]
    makes of in-range fields is the date it was made of, at whatever offset
    the time is then carried. *)
Lemma Date_of_Date (year month day hour min sec nsec zoneOffset : Z) :
  1 ≤ month ≤ 12 → 1 ≤ day ≤ daysIn month year →
  0 ≤ hour ≤ 23 → 0 ≤ min ≤ 59 → 0 ≤ sec ≤ 59 →
  Date_of (mkTime (t_sec (Date year month day hour min sec nsec) - zoneOffset)
                  nsec zoneOffset)
  = (year, month, day).
Proof.
  intros Hm Hd Hh Hmi Hs.
  assert (abs (mkTime (t_sec (Date year month day hour min sec nsec) - zoneOffset)
                      nsec zoneOffset)
          = (daysSinceEpoch year + yearDay year month day) * secondsPerDay
            + (hour * secondsPerHour + min * secondsPerMinute + sec)) as Habs.
  { unfold abs, Date, yearDay. simpl.
    destruct (isLeap year && (3 <=? month)); lia. }
  unfold Date_of, absDays. rewrite Habs.
  assert (((daysSinceEpoch year + yearDay year month day) * secondsPerDay
           + (hour * secondsPerHour + min * secondsPerMinute + sec)) / secondsPerDay
          = daysSinceEpoch year + yearDay year month day) as ->.
  { unfold secondsPerDay, secondsPerHour, secondsPerMinute.
    Z.to_euclidean_division_equations. lia. }
  rewrite absYearDay_daysSinceEpoch by (by apply yearDay_range).
  by rewrite monthDay_yearDay.
Qed.

Lemma digitChar_value (c : ascii) : digitChar (Z.of_N (N_of_ascii c) - 48) = c.
Proof.
  unfold digitChar.
  replace (48 + (Z.of_N (N_of_ascii c) - 48)) with (Z.of_N (N_of_ascii c)) by lia.
  by rewrite N2Z.id, ascii_N_embedding.
Qed.

Lemma isDigit_range (c : ascii) :
  isDigit c = true → 0 ≤ Z.of_N (N_of_ascii c) - 48 ≤ 9.
Proof.
  unfold isDigit. cbv zeta. intros H. apply andb_true_iff in H as [H1 H2].
  apply Z.leb_le in H1, H2. lia.
Qed.

Lemma appendInt_4_digits (y : Z) :
  0 ≤ y < 10000 →
  appendInt y 4 =
  String (digitChar (y / 1000))
    (String (digitChar (y / 100 mod 10))
       (String (digitChar (y / 10 mod 10)) (String (digitChar (y mod 10)) ""))).
Proof.
  intros Hy.
  apply (forallb_below
           (λ y, bool_decide
                   (appendInt y 4 =
                    String (digitChar (y / 1000))
                      (String (digitChar (y / 100 mod 10))
                         (String (digitChar (y / 10 mod 10))
                            (String (digitChar (y mod 10)) "")))))
           (Z.to_nat 10000)) in Hy; [by apply bool_decide_eq_true in Hy|].
  vm_compute. reflexivity.
Qed.

Lemma appendInt_2_digits (m : Z) :
  0 ≤ m < 100 →
  appendInt m 2 = String (digitChar (m / 10)) (String (digitChar (m mod 10)) "").
Proof.
  intros Hm.
  apply (forallb_below
           (λ m, bool_decide
                   (appendInt m 2 =
                    String (digitChar (m / 10)) (String (digitChar (m mod 10)) "")))
           100) in Hm; [by apply bool_decide_eq_true in Hm|].
  vm_compute. reflexivity.
Qed.

(** A four-digit field that [parseUint] accepts is written back by
    [appendInt] as it was read. *)
Lemma appendInt_parseUint_4 (c0 c1 c2 c3 : ascii) (lo hi y : Z) :
  parseUint (String c0 (String c1 (String c2 (String c3 "")))) lo hi = Some y →
  appendInt y 4 = String c0 (String c1 (String c2 (String c3 ""))) ∧ lo ≤ y ≤ hi.
Proof.
  unfold parseUint. simpl.
  destruct (isDigit c0) eqn:D0; [|done]. destruct (isDigit c1) eqn:D1; [|done].
  destruct (isDigit c2) eqn:D2; [|done]. destruct (isDigit c3) eqn:D3; [|done].
  simpl. apply isDigit_range in D0, D1, D2, D3.
  set (d0 := Z.of_N (N_of_ascii c0) - 48) in *.
  set (d1 := Z.of_N (N_of_ascii c1) - 48) in *.
  set (d2 := Z.of_N (N_of_ascii c2) - 48) in *.
  set (d3 := Z.of_N (N_of_ascii c3) - 48) in *.
  change (0 * 10 + d0) with d0.
  destruct (Z.ltb_spec (((d0 * 10 + d1) * 10 + d2) * 10 + d3) lo); [done|].
  destruct (Z.ltb_spec hi (((d0 * 10 + d1) * 10 + d2) * 10 + d3)); [done|].
  simpl. intros [= <-]. split; [|lia].
  rewrite appendInt_4_digits by lia.
  replace ((((d0 * 10 + d1) * 10 + d2) * 10 + d3) / 1000) with d0
    by (Z.to_euclidean_division_equations; lia).
  replace ((((d0 * 10 + d1) * 10 + d2) * 10 + d3) / 100 mod 10) with d1
    by (Z.to_euclidean_division_equations; lia).
  replace ((((d0 * 10 + d1) * 10 + d2) * 10 + d3) / 10 mod 10) with d2
    by (Z.to_euclidean_division_equations; lia).
  replace ((((d0 * 10 + d1) * 10 + d2) * 10 + d3) mod 10) with d3
    by (Z.to_euclidean_division_equations; lia).
  subst d0 d1 d2 d3. by rewrite !digitChar_value.
Qed.

Lemma appendInt_parseUint_2 (c0 c1 : ascii) (lo hi m : Z) :
  parseUint (String c0 (String c1 "")) lo hi = Some m →
  appendInt m 2 = String c0 (String c1 "") ∧ lo ≤ m ≤ hi.
Proof.
  unfold parseUint. simpl.
  destruct (isDigit c0) eqn:D0; [|done]. destruct (isDigit c1) eqn:D1; [|done].
  simpl. apply isDigit_range in D0, D1.
  set (d0 := Z.of_N (N_of_ascii c0) - 48) in *.
  set (d1 := Z.of_N (N_of_ascii c1) - 48) in *.
  change (0 * 10 + d0) with d0.
  destruct (Z.ltb_spec (d0 * 10 + d1) lo); [done|].
  destruct (Z.ltb_spec hi (d0 * 10 + d1)); [done|].
  simpl. intros [= <-]. split; [|lia].
  rewrite appendInt_2_digits by lia.
  replace ((d0 * 10 + d1) / 10) with d0 by (Z.to_euclidean_division_equations; lia).
  replace ((d0 * 10 + d1) mod 10) with d1 by (Z.to_euclidean_division_equations; lia).
  subst d0 d1. by rewrite !digitChar_value.
Qed.

Lemma substring_0_length (s : string) : String.substring 0 (String.length s) s = s.
Proof. induction s as [|c s IH]; simpl; [done|]. by rewrite IH. Qed.

Lemma charAt_true (s : string) (i : nat) (c : ascii) :
  charAt s i c = true → String.get i s = Some c.
Proof.
  unfold charAt. destruct (String.get i s) as [c'|]; [|done].
  by destruct (ascii_dec c' c) as [-> | ?].
Qed.

Lemma parseUint_range (s : string) (lo hi x : Z) :
  parseUint s lo hi = Some x → lo ≤ x ≤ hi.
Proof.
  unfold parseUint. destruct (atoi_from 0 s) as [v|]; simpl; [|done].
  destruct (Z.ltb_spec v lo); [done|]. destruct (Z.ltb_spec hi v); [done|].
  simpl. intros [= <-]. lia.
Qed.

Lemma spanDigits_length (s : string) :
  (String.length (spanDigits s).2 ≤ String.length s)%nat.
Proof.
  induction s as [|c s IH]; simpl; [lia|].
  destruct (isDigit c); [|simpl; lia].
  destruct (spanDigits s) as [ds rest]. simpl in *. lia.
Qed.

Lemma parseFraction_length (s : string) :
  (String.length (parseFraction s).2 ≤ String.length s)%nat.
Proof.
  unfold parseFraction.
  destruct s as [|c s]; [simpl; lia|].
  destruct (ascii_dec c ".") as [-> | Hc].
  - destruct s as [|c' s]; [simpl; lia|].
    destruct (isDigit c') eqn:Hd; [|simpl; lia].
    pose proof (spanDigits_length (String c' s)) as Hlen.
    destruct (spanDigits (String c' s)) as [ds rest]. simpl in *. lia.
  - destruct c as [[] [] [] [] [] [] [] []]; simpl; try lia. by destruct Hc.
Qed.

Lemma atoi_from_bound (s : string) (x v : Z) :
  0 ≤ x → atoi_from x s = Some v →
  x * 10 ^ Z.of_nat (String.length s) ≤ v < (x + 1) * 10 ^ Z.of_nat (String.length s).
Proof.
  revert x. induction s as [|c s IH]; intros x Hx; simpl atoi_from.
  - intros [= <-]. simpl. lia.
  - destruct (isDigit c) eqn:Hc; [|done]. intros Hv.
    apply isDigit_range in Hc.
    apply IH in Hv; [|lia].
    replace (Z.of_nat (String.length (String c s)))
      with (Z.of_nat (String.length s) + 1) by (simpl; lia).
    rewrite Z.pow_add_r, Z.pow_1_r by lia.
    assert (0 < 10 ^ Z.of_nat (String.length s)) by (apply Z.pow_pos_nonneg; lia).
    nia.
Qed.

Lemma scaleNanos_pow (n : nat) (ns : Z) : scaleNanos n ns = ns * 10 ^ Z.of_nat n.
Proof.
  revert ns. induction n as [|n IH]; intros ns; simpl scaleNanos; [simpl; lia|].
  rewrite IH. replace (Z.of_nat (S n)) with (Z.of_nat n + 1) by lia.
  rewrite Z.pow_add_r, Z.pow_1_r by lia. lia.
Qed.

Lemma substring_0_length_le (n : nat) (s : string) :
  (String.length (String.substring 0 n s) ≤ n)%nat.
Proof.
  revert s. induction n as [|n IH]; intros [|c s]; simpl; try lia.
  specialize (IH s). lia.
Qed.

Lemma parseNanoseconds_range (ds : string) : 0 ≤ parseNanoseconds ds < 1000000000.
Proof.
  unfold parseNanoseconds.
  pose proof (substring_0_length_le 9 ds) as Hlen.
  set (ds' := String.substring 0 9 ds) in *.
  destruct (atoi_from 0 ds') as [ns|] eqn:Hns; [|lia].
  apply atoi_from_bound in Hns; [|lia].
  rewrite scaleNanos_pow.
  replace (Z.of_nat (9 - String.length ds')) with (9 - Z.of_nat (String.length ds'))
    by lia.
  set (k := Z.of_nat (String.length ds')) in *.
  assert (0 ≤ k ≤ 9) as Hk by lia.
  assert (10 ^ k * 10 ^ (9 - k) = 1000000000) as Hpow.
  { rewrite <- Z.pow_add_r by lia. by replace (k + (9 - k)) with 9 by lia. }
  assert (0 < 10 ^ (9 - k)) by (apply Z.pow_pos_nonneg; lia).
  nia.
Qed.

Lemma parseFraction_range (s : string) : 0 ≤ (parseFraction s).1 < 1000000000.
Proof.
  unfold parseFraction.
  destruct s as [|c s]; [simpl; lia|].
  destruct (ascii_dec c ".") as [-> | Hc].
  - destruct s as [|c' s]; [simpl; lia|].
    destruct (isDigit c'); [|simpl; lia].
    destruct (spanDigits (String c' s)) as [ds rest]. simpl.
    apply parseNanoseconds_range.
  - destruct c as [[] [] [] [] [] [] [] []]; simpl; try lia. by destruct Hc.
Qed.

(** What a timestamp that the RFC 3339 grammar takes looks like, and the
    time it parses to. *)
Lemma parseRFC3339_shape (s : string) (t : Time) :
  parseRFC3339 s = Some t →
  ∃ (c0 c1 c2 c3 c5 c6 c8 c9 : ascii) (tail : string)
    (year month day hour min sec zoneOffset : Z),
    s = String c0 (String c1 (String c2 (String c3 (String "-"
          (String c5 (String c6 (String "-" (String c8 (String c9
             (String "T" tail)))))))))) ∧
    parseUint (String c0 (String c1 (String c2 (String c3 "")))) 0 9999 = Some year ∧
    parseUint (String c5 (String c6 "")) 1 12 = Some month ∧
    parseUint (String c8 (String c9 "")) 1 (daysIn month year) = Some day ∧
    0 ≤ hour ≤ 23 ∧ 0 ≤ min ≤ 59 ∧ 0 ≤ sec ≤ 59 ∧
    -90000 ≤ zoneOffset ≤ 90000 ∧
    (8 ≤ String.length tail)%nat ∧
    0 ≤ t_nsec t < 1000000000 ∧
    t = mkTime (t_sec (Date year month day hour min sec (t_nsec t)) - zoneOffset)
               (t_nsec t) zoneOffset.
Proof.
  intros Hparse.
  assert (19 ≤ String.length s)%nat as Hlen.
  { unfold parseRFC3339 in Hparse.
    destruct (Nat.ltb_spec (String.length s) 19); [done|lia]. }
  do 19 (destruct s as [|? s]; [simpl in Hlen; lia|]).
  clear Hlen.
  unfold parseRFC3339 in Hparse.
  change (String.length _ <? 19)%nat with false in Hparse. cbv iota in Hparse.
  cbn [String.substring] in Hparse.
  replace (String.substring 0 0 s) with EmptyString in Hparse by (by destruct s).
  destruct (parseUint (String a (String a0 (String a1 (String a2 "")))) 0 9999)
    as [year|] eqn:Hyear;
    cbn [mbind option_bind] in Hparse; [|done].
  destruct (parseUint (String a4 (String a5 "")) 1 12) as [month|] eqn:Hmonth;
    cbn [mbind option_bind] in Hparse; [|done].
  destruct (parseUint (String a7 (String a8 "")) 1 (daysIn month year))
    as [day|] eqn:Hday;
    cbn [mbind option_bind] in Hparse; [|done].
  destruct (parseUint (String a10 (String a11 "")) 0 23) as [hour|] eqn:Hhour;
    cbn [mbind option_bind] in Hparse; [|done].
  destruct (parseUint (String a13 (String a14 "")) 0 59) as [min|] eqn:Hmin;
    cbn [mbind option_bind] in Hparse; [|done].
  destruct (parseUint (String a16 (String a17 "")) 0 59) as [sec|] eqn:Hsec;
    cbn [mbind option_bind] in Hparse; [|done].
  unfold charAt in Hparse at 1 2 3 4 5. cbn [String.get] in Hparse.
  destruct (ascii_dec a3 "-") as [-> | ?]; [|done].
  destruct (ascii_dec a6 "-") as [-> | ?]; [|done].
  destruct (ascii_dec a9 "T") as [-> | ?]; [|done].
  destruct (ascii_dec a12 ":") as [-> | ?]; [|done].
  destruct (ascii_dec a15 ":") as [-> | ?]; [|done].
  cbn [andb negb] in Hparse.
  apply parseUint_range in Hhour, Hmin, Hsec.
  cbn [String.length Nat.sub] in Hparse.
  rewrite Nat.sub_0_r, substring_0_length in Hparse.
  pose proof (parseFraction_length s) as Hrest.
  pose proof (parseFraction_range s) as Hnsec.
  destruct (parseFraction s) as [nsec rest]. simpl in Hrest, Hnsec.
  destruct (String.eqb_spec rest "Z") as [Hz | _]; [subst rest|].
  - injection Hparse as <-.
    exists a, a0, a1, a2, a4, a5, a7, a8.
    eexists. exists year, month, day, hour, min, sec.
    exists 0. simpl t_nsec.
    repeat (split; [first [reflexivity | done | lia]|]).
    split; [simpl in *; lia|]. split; [done|].
    unfold Date. simpl t_sec. f_equal. lia.
  - destruct (Nat.eqb_spec (String.length rest) 6) as [Hsix | ?]; [|done].
    cbn [negb] in Hparse.
    destruct (parseUint (String.substring 1 2 rest) 0 23) as [hr|] eqn:Hhr;
      cbn [mbind option_bind] in Hparse; [|done].
    destruct (parseUint (String.substring 4 2 rest) 0 59) as [mm|] eqn:Hmm;
      cbn [mbind option_bind] in Hparse; [|done].
    destruct (negb _); [done|].
    apply parseUint_range in Hhr, Hmm.
    injection Hparse as <-.
    exists a, a0, a1, a2, a4, a5, a7, a8.
    eexists. exists year, month, day, hour, min, sec.
    exists (if charAt rest 0 "-" then - ((hr * 60 + mm) * 60) else (hr * 60 + mm) * 60).
    simpl t_nsec.
    split; [reflexivity|]. do 3 (split; [done|]). do 3 (split; [lia|]).
    split; [destruct (charAt rest 0 "-"); lia|].
    split; [simpl; lia|]. split; [done|reflexivity].
Qed.

Lemma getnum_fixed (s rest : string) (v : Z) :
  getnum s true = Some (v, rest) →
  ∃ c0 c1, s = String c0 (String c1 rest) ∧
           atoi_from 0 (String c0 (String c1 "")) = Some v ∧ 0 ≤ v ≤ 99.
Proof.
  unfold getnum, isDigitAt.
  destruct s as [|c0 [|c1 s]]; cbn [String.get]; [done| |].
  - destruct (isDigit c0); simpl; done.
  - destruct (isDigit c0) eqn:D0; [|done]. destruct (isDigit c1) eqn:D1; [|done].
    cbn [negb]. intros [= <- <-]. exists c0, c1. split; [done|].
    simpl. rewrite D0, D1. unfold digitValue.
    apply isDigit_range in D0, D1. split; [done|lia].
Qed.

Lemma getnum_free (s rest : string) (v : Z) :
  getnum s false = Some (v, rest) →
  0 ≤ v ≤ 99 ∧ (String.length rest < String.length s)%nat.
Proof.
  unfold getnum, isDigitAt.
  destruct s as [|c0 [|c1 s]]; cbn [String.get]; [done| |].
  - destruct (isDigit c0) eqn:D0; [|done]. cbn [negb].
    intros [= <- <-]. apply isDigit_range in D0. unfold digitValue. simpl. lia.
  - destruct (isDigit c0) eqn:D0; [|done]. apply isDigit_range in D0.
    destruct (isDigit c1) eqn:D1; cbn [negb].
    + intros [= <- <-]. apply isDigit_range in D1. unfold digitValue. simpl. lia.
    + intros [= <- <-]. unfold digitValue. simpl. lia.
Qed.

Lemma skip_inv (s rest : string) (c : ascii) :
  skip s c = Some rest → s = String c rest.
Proof.
  destruct s as [|c' s]; [done|]. simpl.
  destruct (Ascii.eqb_spec c' c) as [-> | ?]; [|done]. by intros [= ->].
Qed.

Lemma parseFractionalSecond_spec (s : string) :
  0 ≤ (parseFractionalSecond s).1 < 1000000000 ∧
  (String.length (parseFractionalSecond s).2 ≤ String.length s)%nat.
Proof.
  unfold parseFractionalSecond.
  destruct s as [|c0 [|c1 s]]; [simpl; lia..|].
  destruct (commaOrPeriod c0 && isDigit c1); [|simpl; lia].
  pose proof (spanDigits_length (String c1 s)) as Hlen.
  destruct (spanDigits (String c1 s)) as [ds rest]. simpl in *.
  split; [apply parseNanoseconds_range|lia].
Qed.

Lemma parseZone_spec (s rest : string) (z : bool) (zoneOffset : Z) :
  parseZone s = Some (z, zoneOffset, rest) →
  (String.length rest < String.length s)%nat ∧
  (z = false → -90000 ≤ zoneOffset ≤ 90000).
Proof.
  unfold parseZone.
  assert ((String.length s <? 6)%nat = false →
          (String.length (String.substring 6 (String.length s - 6) s)
           < String.length s)%nat) as Hlen.
  { intros H6. apply Nat.ltb_ge in H6.
    do 6 (destruct s as [|? s]; [simpl in H6; lia|]).
    cbn [String.length Nat.sub String.substring].
    rewrite Nat.sub_0_r, substring_0_length. lia. }
  assert ((if (String.length s <? 6)%nat then None
           else if negb (charAt s 3 ":") then None
           else
             let sign := String.substring 0 1 s in
             let hour := String.substring 1 2 s in
             let min := String.substring 4 2 s in
             let seconds := "00"%string in
             let value := String.substring 6 (String.length s - 6) s in
             getnum hour true ≫= λ '(hr, _),
             getnum min true ≫= λ '(mm, _),
             getnum seconds true ≫= λ '(ss, _),
             if (24 <? hr) || (60 <? mm) || (60 <? ss) then None
             else
               let zoneOffset := (hr * 60 + mm) * 60 + ss in
               if String.eqb sign "+" then Some (false, zoneOffset, value)
               else if String.eqb sign "-" then Some (false, - zoneOffset, value)
               else None) = Some (z, zoneOffset, rest) →
          (String.length rest < String.length s)%nat ∧
          (z = false → -90000 ≤ zoneOffset ≤ 90000)) as Hnum.
  { destruct (String.length s <? 6)%nat eqn:H6; [done|].
    specialize (Hlen eq_refl).
    destruct (negb _); [done|]. cbv zeta.
    destruct (getnum (String.substring 1 2 s) true) as [[hr r1]|] eqn:Hhr;
      cbn [mbind option_bind]; [|done].
    destruct (getnum (String.substring 4 2 s) true) as [[mm r2]|] eqn:Hmm;
      cbn [mbind option_bind]; [|done].
    change (getnum "00" true) with (Some (0, ""%string)).
    cbn [mbind option_bind].
    apply getnum_fixed in Hhr as (? & ? & _ & _ & Hhr).
    apply getnum_fixed in Hmm as (? & ? & _ & _ & Hmm).
    destruct (Z.ltb_spec 24 hr); [done|]. destruct (Z.ltb_spec 60 mm); [done|].
    change (60 <? 0) with false. cbn [orb].
    destruct (String.eqb _ "+").
    - intros [= <- <- <-]. split; [done|]. lia.
    - destruct (String.eqb _ "-"); [|done].
      intros [= <- <- <-]. split; [done|]. lia. }
  destruct s as [|c s]; [done|].
  destruct (ascii_dec c "Z") as [-> | Hc].
  - intros [= <- <- <-]. split; [simpl; lia|done].
  - destruct c as [[] [] [] [] [] [] [] []]; try exact Hnum. by destruct Hc.
Qed.

(** What a timestamp that the general parser takes looks like. *)
Lemma parse_RFC3339_shape (s : string) (t : Time) :
  parse_RFC3339 s = Some t →
  ∃ (c0 c1 c2 c3 c5 c6 c8 c9 : ascii) (tail : string)
    (year month day hour min sec zoneOffset : Z),
    s = String c0 (String c1 (String c2 (String c3 (String "-"
          (String c5 (String c6 (String "-" (String c8 (String c9
             (String "T" tail)))))))))) ∧
    parseUint (String c0 (String c1 (String c2 (String c3 "")))) 0 9999 = Some year ∧
    parseUint (String c5 (String c6 "")) 1 12 = Some month ∧
    parseUint (String c8 (String c9 "")) 1 (daysIn month year) = Some day ∧
    0 ≤ hour ≤ 23 ∧ 0 ≤ min ≤ 59 ∧ 0 ≤ sec ≤ 59 ∧
    -90000 ≤ zoneOffset ≤ 90000 ∧
    (8 ≤ String.length tail)%nat ∧
    0 ≤ t_nsec t < 1000000000 ∧
    t = mkTime (t_sec (Date year month day hour min sec (t_nsec t)) - zoneOffset)
               (t_nsec t) zoneOffset.
Proof.
  unfold parse_RFC3339. intros Hparse.
  destruct (Nat.ltb_spec (String.length s) 4) as [|Hlen]; [done|].
  do 4 (destruct s as [|? s]; [simpl in Hlen; lia|]). clear Hlen.
  cbn [orb] in Hparse.
  destruct (negb (isDigitAt _ 0)); [done|].
  cbn [String.substring String.length Nat.sub] in Hparse.
  replace (String.substring 0 0 s) with EmptyString in Hparse by (by destruct s).
  rewrite Nat.sub_0_r, substring_0_length in Hparse.
  destruct (atoi_from 0 (String a (String a0 (String a1 (String a2 "")))))
    as [year|] eqn:Hyear; cbn [mbind option_bind] in Hparse; [|done].
  destruct (skip s "-") as [v1|] eqn:Hs1; cbn [mbind option_bind] in Hparse; [|done].
  apply skip_inv in Hs1 as ->.
  destruct (getnum v1 true) as [[month v2]|] eqn:Hmonth;
    cbn [mbind option_bind] in Hparse; [|done].
  apply getnum_fixed in Hmonth as (c5 & c6 & -> & Hmonth & _).
  destruct (Z.leb_spec month 0); [done|]. destruct (Z.ltb_spec 12 month); [done|].
  cbn [orb] in Hparse.
  destruct (skip v2 "-") as [v3|] eqn:Hs2; cbn [mbind option_bind] in Hparse; [|done].
  apply skip_inv in Hs2 as ->.
  destruct (getnum v3 true) as [[day v4]|] eqn:Hday;
    cbn [mbind option_bind] in Hparse; [|done].
  apply getnum_fixed in Hday as (c8 & c9 & -> & Hday & _).
  destruct (skip v4 "T") as [tail|] eqn:Hs3; cbn [mbind option_bind] in Hparse; [|done].
  apply skip_inv in Hs3 as ->.
  destruct (getnum tail false) as [[hour v5]|] eqn:Hhour;
    cbn [mbind option_bind] in Hparse; [|done].
  apply getnum_free in Hhour as [Hhour Hl1].
  destruct (Z.ltb_spec hour 0); [done|]. destruct (Z.leb_spec 24 hour); [done|].
  cbn [orb] in Hparse.
  destruct (skip v5 ":") as [v6|] eqn:Hs4; cbn [mbind option_bind] in Hparse; [|done].
  apply skip_inv in Hs4 as ->.
  destruct (getnum v6 true) as [[min v7]|] eqn:Hmin;
    cbn [mbind option_bind] in Hparse; [|done].
  apply getnum_fixed in Hmin as (? & ? & -> & _ & Hmin).
  destruct (Z.ltb_spec min 0); [done|]. destruct (Z.leb_spec 60 min); [done|].
  cbn [orb] in Hparse.
  destruct (skip v7 ":") as [v8|] eqn:Hs5; cbn [mbind option_bind] in Hparse; [|done].
  apply skip_inv in Hs5 as ->.
  destruct (getnum v8 true) as [[sec v9]|] eqn:Hsec;
    cbn [mbind option_bind] in Hparse; [|done].
  apply getnum_fixed in Hsec as (? & ? & -> & _ & Hsec).
  destruct (Z.ltb_spec sec 0); [done|]. destruct (Z.leb_spec 60 sec); [done|].
  cbn [orb] in Hparse.
  pose proof (parseFractionalSecond_spec v9) as [Hnsec Hl2].
  destruct (parseFractionalSecond v9) as [nsec v10]. simpl in Hnsec, Hl2.
  destruct (parseZone v10) as [[[z zoneOffset] v11]|] eqn:Hzone;
    cbn [mbind option_bind] in Hparse; [|done].
  apply parseZone_spec in Hzone as [Hl3 Hzone].
  destruct (negb (String.eqb v11 "")); [done|].
  destruct (Z.ltb_spec day 1); [done|].
  destruct (Z.ltb_spec (daysIn month year) day); [done|].
  cbn [orb] in Hparse.
  pose proof (atoi_from_bound _ 0 year ltac:(lia) Hyear) as Hy. simpl in Hy.
  assert (∃ zo, -90000 ≤ zo ≤ 90000 ∧
                t = mkTime (t_sec (Date year month day hour min sec nsec) - zo) nsec zo)
    as (zo & Hzo & ->).
  { destruct z.
    - injection Hparse as <-. exists 0. split; [lia|].
      unfold Date. simpl t_sec. f_equal. lia.
    - destruct (Z.eqb_spec zoneOffset (-1)); cbn [negb] in Hparse.
      + injection Hparse as <-. exists 0. split; [lia|].
        unfold Date. simpl t_sec. f_equal. lia.
      + injection Hparse as <-. exists zoneOffset. split; [by apply Hzone|done]. }
  exists a, a0, a1, a2, c5, c6, c8, c9, tail, year, month, day, hour, min, sec, zo.
  simpl t_nsec.
  split; [done|].
  split. { unfold parseUint. rewrite Hyear. simpl.
           destruct (Z.ltb_spec year 0); [lia|]. destruct (Z.ltb_spec 9999 year); [lia|].
           done. }
  split. { unfold parseUint. rewrite Hmonth. simpl.
           destruct (Z.ltb_spec month 1); [lia|]. destruct (Z.ltb_spec 12 month); [lia|].
           done. }
  split. { unfold parseUint. rewrite Hday. simpl.
           destruct (Z.ltb_spec day 1); [lia|].
           destruct (Z.ltb_spec (daysIn month year) day); [lia|]. done. }
  repeat (split; [lia|]).
  split; [simpl in *; lia|]. split; [lia|done].
Qed.

(** What a timestamp that [time.Parse] takes looks like, and the time it
    parses to. *)
Lemma time_Parse_RFC3339_shape (s : string) (t : Time) :
  time_Parse_RFC3339 s = Some t →
  ∃ (c0 c1 c2 c3 c5 c6 c8 c9 : ascii) (tail : string)
    (year month day hour min sec zoneOffset : Z),
    s = String c0 (String c1 (String c2 (String c3 (String "-"
          (String c5 (String c6 (String "-" (String c8 (String c9
             (String "T" tail)))))))))) ∧
    parseUint (String c0 (String c1 (String c2 (String c3 "")))) 0 9999 = Some year ∧
    parseUint (String c5 (String c6 "")) 1 12 = Some month ∧
    parseUint (String c8 (String c9 "")) 1 (daysIn month year) = Some day ∧
    0 ≤ hour ≤ 23 ∧ 0 ≤ min ≤ 59 ∧ 0 ≤ sec ≤ 59 ∧
    -90000 ≤ zoneOffset ≤ 90000 ∧
    (8 ≤ String.length tail)%nat ∧
    0 ≤ t_nsec t < 1000000000 ∧
    t = mkTime (t_sec (Date year month day hour min sec (t_nsec t)) - zoneOffset)
               (t_nsec t) zoneOffset.
Proof.
  unfold time_Parse_RFC3339.
  destruct (parseRFC3339 s) as [t'|] eqn:Hstrict.
  - intros [= <-]. by apply parseRFC3339_shape.
  - apply parse_RFC3339_shape.
Qed.

Lemma Format_date_parsed (s : string) (t : Time) :
  time_Parse_RFC3339 s = Some t →
  Format_date t = String.substring 0 10 s.
Proof.
  intros Hparse.
  destruct (time_Parse_RFC3339_shape s t Hparse)
    as (c0 & c1 & c2 & c3 & c5 & c6 & c8 & c9 & tail & year & month & day &
        hour & min & sec & zoneOffset & -> & Hyear & Hmonth & Hday &
        Hhour & Hmin & Hsec & _ & _ & _ & Ht).
  apply appendInt_parseUint_4 in Hyear as [Hyear _].
  apply appendInt_parseUint_2 in Hmonth as [Hmonth Hm].
  apply appendInt_parseUint_2 in Hday as [Hday Hd].
  unfold Format_date. rewrite Ht.
  rewrite Date_of_Date by done.
  rewrite Hyear, Hmonth, Hday.
  replace (String.substring 0 0 tail) with EmptyString by (by destruct tail).
  reflexivity.
Qed.

(** ** Timestamps as written *)

(** X1. A timestamp that parses is rendered by [Format("2006-01-02")] as
    its own first ten characters: the day of a feed record is the date as
    written in [date_local], whatever its time of day and its offset. *)
Theorem parsed_date_is_written_date (s : string) (t : Time) :
  time_Parse_RFC3339 s = Some t →
  Format_date t = String.substring 0 10 s.
Proof. apply Format_date_parsed. Qed.

Lemma parsed_date_is_written_date_witness :
  Format_date eveningTime = "2049-12-25"%string.
Proof.
  apply (parsed_date_is_written_date (DateLocal eveningLaunch) eveningTime).
  vm_compute. reflexivity.
Defined.

(** X2. The site check by text: the launch pad is reported taken exactly
    when some record of the feed names the pad, carries a timestamp that
    parses, and has as first ten characters of that timestamp the requested
    launch date in the form 2006-01-02; when the launch date was itself
    parsed from a timestamp, that is when the two timestamps agree on their
    first ten characters. *)
Theorem site_check_by_written_date
    (launchpadID : string) (launchDate : Time) (launches : list Launch)
    (rows : RowsResult) (insert : Booking → error + Z) :
  ((CheckLaunchpadAvailability launchpadID launchDate
      (mkWorld (Decoded launches) rows insert)).1 = Done (false, None) ↔
   ∃ launch,
     launch ∈ launches ∧
     is_Some (time_Parse_RFC3339 (DateLocal launch)) ∧
     Launchpad launch = launchpadID ∧
     String.substring 0 10 (DateLocal launch) = Format_date launchDate) ∧
  (∀ requested,
     time_Parse_RFC3339 requested = Some launchDate →
     ((CheckLaunchpadAvailability launchpadID launchDate
         (mkWorld (Decoded launches) rows insert)).1 = Done (false, None) ↔
      ∃ launch,
        launch ∈ launches ∧
        is_Some (time_Parse_RFC3339 (DateLocal launch)) ∧
        Launchpad launch = launchpadID ∧
        String.substring 0 10 (DateLocal launch)
          = String.substring 0 10 requested)).
Proof.
  assert ((CheckLaunchpadAvailability launchpadID launchDate
             (mkWorld (Decoded launches) rows insert)).1 = Done (false, None) ↔
          ∃ launch,
            launch ∈ launches ∧
            is_Some (time_Parse_RFC3339 (DateLocal launch)) ∧
            Launchpad launch = launchpadID ∧
            String.substring 0 10 (DateLocal launch) = Format_date launchDate)
    as Hiff.
  { rewrite CheckLaunchpadAvailability_run. simpl.
    split.
    - intros [= Hscan]. apply scanLaunches_conflict_iff in Hscan
        as (launch & dateLocal & Hin & Hparse & Hpad & Hday).
      exists launch. split; [done|]. split; [by exists dateLocal|]. split; [done|].
      rewrite <- (Format_date_parsed _ _ Hparse). by apply Format_date_inj.
    - intros (launch & Hin & [dateLocal Hparse] & Hpad & Hday).
      f_equal. apply scanLaunches_conflict_iff. exists launch, dateLocal.
      split; [done|]. split; [done|]. split; [done|].
      apply Format_date_inj. by rewrite (Format_date_parsed _ _ Hparse). }
  split; [exact Hiff|].
  intros requested Hreq. rewrite Hiff.
  by rewrite (Format_date_parsed _ _ Hreq).
Qed.

Lemma site_check_by_written_date_witness :
  (CheckLaunchpadAvailability "test_launchpad" testLaunchDate
     (mkWorld (Decoded [eveningLaunch]) (Rows weekDestinations) (λ _, inr 1))).1
  = Done (false, None).
Proof.
  destruct (site_check_by_written_date "test_launchpad" testLaunchDate
              [eveningLaunch] (Rows weekDestinations) (λ _, inr 1)) as [_ Hreq].
  apply (Hreq "2049-12-25T00:00:00Z"%string); [vm_compute; reflexivity|].
  exists eveningLaunch. split; [apply list_elem_of_here|].
  split; [exists eveningTime; vm_compute; reflexivity|].
  split; reflexivity.
Defined.

(** X3. Only well-formed timestamps parse: at least nineteen characters,
    with the hyphens and the [T] in place, and a real calendar day (no
    month 13, no February 30).  The time they parse to carries that day, in
    a year from 0 to 9999, and a nanosecond count below one second.  So a
    feed record whose [date_local] is shorter, or has another character in
    one of these places, is passed over by the site check, which answers as
    for the feed without it. *)
Theorem parsed_timestamp_well_formed (s : string) :
  (∀ t,
     time_Parse_RFC3339 s = Some t →
     (19 ≤ String.length s)%nat ∧
     String.get 4 s = Some "-"%char ∧
     String.get 7 s = Some "-"%char ∧
     String.get 10 s = Some "T"%char ∧
     0 ≤ t_nsec t < Second ∧
     ∃ year month day,
       Date_of t = (year, month, day) ∧
       0 ≤ year ≤ 9999 ∧ 1 ≤ month ≤ 12 ∧ 1 ≤ day ≤ daysIn month year) ∧
  ((String.length s < 19)%nat ∨ String.get 4 s ≠ Some "-"%char ∨
   String.get 7 s ≠ Some "-"%char ∨ String.get 10 s ≠ Some "T"%char →
   ∀ launchpadID launchDate before launch rest w,
     DateLocal launch = s →
     spacex_feed w = Decoded (before ++ launch :: rest) →
     CheckLaunchpadAvailability launchpadID launchDate w =
     CheckLaunchpadAvailability launchpadID launchDate
       (mkWorld (Decoded (before ++ rest)) (destinations_rows w) (bookings_insert w))).
Proof.
  assert (∀ t,
     time_Parse_RFC3339 s = Some t →
     (19 ≤ String.length s)%nat ∧
     String.get 4 s = Some "-"%char ∧
     String.get 7 s = Some "-"%char ∧
     String.get 10 s = Some "T"%char ∧
     0 ≤ t_nsec t < Second ∧
     ∃ year month day,
       Date_of t = (year, month, day) ∧
       0 ≤ year ≤ 9999 ∧ 1 ≤ month ≤ 12 ∧ 1 ≤ day ≤ daysIn month year) as Hshape.
  { intros t Hparse.
    destruct (time_Parse_RFC3339_shape s t Hparse)
      as (c0 & c1 & c2 & c3 & c5 & c6 & c8 & c9 & tail & year & month & day &
          hour & min & sec & zoneOffset & -> & Hyear & Hmonth & Hday &
          Hhour & Hmin & Hsec & Hzone & Htail & Hnsec & Ht).
    apply parseUint_range in Hyear, Hmonth, Hday.
    split; [simpl; lia|]. do 3 (split; [reflexivity|]).
    split; [exact Hnsec|].
    exists year, month, day. split; [|done].
    rewrite Ht. by apply Date_of_Date. }
  split; [exact Hshape|].
  intros Hbad launchpadID launchDate before launch rest w Hs Hfeed.
  assert (time_Parse_RFC3339 (DateLocal launch) = None) as Hnone.
  { rewrite Hs. destruct (time_Parse_RFC3339 s) as [t|] eqn:Hparse; [|done].
    destruct (Hshape t eq_refl) as (Hlen & H4 & H7 & H10 & _).
    destruct Hbad as [? | [? | [? | ?]]]; [lia|done..]. }
  rewrite !CheckLaunchpadAvailability_run. simpl. rewrite Hfeed. unfold feedResult.
  f_equal.
  rewrite (scanLaunches_skips_unparseable _ _ (before ++ launch :: rest)),
    (scanLaunches_skips_unparseable _ _ (before ++ rest)).
  rewrite !filter_app, filter_cons, decide_False; [done|].
  rewrite Hnone. by intros [? ?].
Qed.

Lemma parsed_timestamp_well_formed_witness :
  (19 ≤ String.length (DateLocal shortHourLaunch))%nat ∧
  0 ≤ t_nsec shortHourTime < Second.
Proof.
  destruct (parsed_timestamp_well_formed (DateLocal shortHourLaunch)) as [Hshape _].
  destruct (Hshape shortHourTime) as (Hlen & _ & _ & _ & Hnsec & _);
    [vm_compute; reflexivity|].
  by split.
Defined.

Lemma daysSinceEpoch_absYearDay (days : Z) :
  days = daysSinceEpoch (absYearDay days).1 + (absYearDay days).2 ∧
  0 ≤ (absYearDay days).2 < daysInYear (absYearDay days).1.
Proof.
  unfold daysInYear. rewrite isLeap_cycles. cbv zeta.
  unfold absYearDay, daysSinceEpoch, daysPer400Years, daysPer100Years, daysPer4Years.
  rewrite !Z.shiftr_div_pow2 by lia. change (2 ^ 2) with 4.
  cbv zeta. cbn [fst snd].
  set (n400 := days / (365 * 400 + 97)).
  set (d1 := days - (365 * 400 + 97) * n400).
  set (n100 := d1 / (365 * 100 + 24) - d1 / (365 * 100 + 24) / 4).
  set (d2 := d1 - (365 * 100 + 24) * n100).
  set (n4 := d2 / (365 * 4 + 1)).
  set (d3 := d2 - (365 * 4 + 1) * n4).
  set (n1 := d3 / 365 - d3 / 365 / 4).
  set (yd := d3 - 365 * n1).
  assert (0 ≤ d1 < 146097) by (subst d1 n400; Z.to_euclidean_division_equations; lia).
  assert (0 ≤ n100 ≤ 3 ∧ 0 ≤ d2 ≤ 36524 ∧ (d2 = 36524 → n100 = 3)) as (? & ? & ?)
    by (subst d2 n100; Z.to_euclidean_division_equations; lia).
  assert (0 ≤ n4 ≤ 24 ∧ 0 ≤ d3 ≤ 1460 ∧ (n4 = 24 → d3 ≤ 1460 - 1 ∨ n100 = 3))
    as (? & ? & ?)
    by (subst d3 n4; Z.to_euclidean_division_equations; lia).
  assert (0 ≤ n1 ≤ 3 ∧ 0 ≤ yd ≤ 365 ∧ (yd = 365 → n1 = 3 ∧ d3 = 1460)) as (? & ? & ?)
    by (subst yd n1; Z.to_euclidean_division_equations; lia).
  assert (days = 146097 * n400 + 36524 * n100 + 1461 * n4 + 365 * n1 + yd) as Hdays
    by (subst yd d3 d2 d1; lia).
  clearbody yd n1 d3 n4 d2 n100 d1 n400.
  replace (400 * n400 + 100 * n100 + 4 * n4 + n1 + 1 - 1)
    with (400 * n400 + (100 * n100 + 4 * n4 + n1)) by lia.
  set (r := 100 * n100 + 4 * n4 + n1).
  assert ((400 * n400 + r) / 400 = n400) as E1
    by (subst r; Z.to_euclidean_division_equations; lia).
  rewrite E1.
  replace (400 * n400 + r - 400 * n400) with r by lia.
  assert (r / 100 = n100) as E2 by (subst r; Z.to_euclidean_division_equations; lia).
  rewrite E2.
  replace (r - 100 * n100) with (4 * n4 + n1) by (subst r; lia).
  assert ((4 * n4 + n1) / 4 = n4) as E3 by (Z.to_euclidean_division_equations; lia).
  rewrite E3.
  replace (4 * n4 + n1 - 4 * n4) with n1 by lia.
  split; [lia|].
  destruct (Z.eqb_spec n1 3), (Z.eqb_spec n4 24), (Z.eqb_spec n100 3); simpl; lia.
Qed.

Lemma yearDay_monthDay (year yday : Z) :
  0 ≤ yday < daysInYear year →
  yearDay year (monthDay year yday).1 (monthDay year yday).2 = yday.
Proof.
  unfold daysInYear. intros Hy.
  change (yearDayOf (isLeap year) (monthDayOf (isLeap year) yday).1
            (monthDayOf (isLeap year) yday).2 = yday).
  assert (yearDay_checked (isLeap year) = true) as Hall
    by (destruct (isLeap year); vm_compute; reflexivity).
  unfold yearDay_checked in Hall.
  pose proof (forallb_below _ 366 Hall yday) as Hyd. cbv beta in Hyd.
  destruct (monthDayOf (isLeap year) yday) as [m d]. simpl.
  destruct (Z.ltb_spec yday (if isLeap year then 366 else 365)); [|lia].
  simpl in Hyd. apply Z.eqb_eq. apply Hyd. destruct (isLeap year); lia.
Qed.

(** The day count of a time is fixed by its wall-clock date. *)
Lemma absDays_Date_of (t : Time) :
  absDays t =
  daysSinceEpoch (Date_of t).1.1 + yearDay (Date_of t).1.1 (Date_of t).1.2 (Date_of t).2.
Proof.
  unfold Date_of.
  destruct (daysSinceEpoch_absYearDay (absDays t)) as [Hdays Hyd].
  destruct (absYearDay (absDays t)) as [year yday]. simpl in Hdays, Hyd.
  pose proof (yearDay_monthDay year yday Hyd) as Hmd.
  destruct (monthDay year yday) as [month day]. simpl in *. lia.
Qed.

Lemma Weekday_absDays (t : Time) : Weekday t = (absDays t + 1) mod 7.
Proof.
  unfold Weekday, absDays, Monday, secondsPerDay, secondsPerHour, secondsPerMinute.
  Z.to_euclidean_division_equations. lia.
Qed.

Lemma rotationWeekday_absDays (t : Time) : rotationWeekday t = absDays t mod 7.
Proof.
  unfold rotationWeekday. rewrite Weekday_absDays.
  rewrite Z.rem_mod_nonneg by (Z.to_euclidean_division_equations; lia).
  Z.to_euclidean_division_equations. lia.
Qed.

Lemma scanLaunches_Format_date (launchpadID : string) (launchDate launchDate' : Time)
    (launches : list Launch) :
  Format_date launchDate = Format_date launchDate' →
  scanLaunches launchpadID launchDate launches =
  scanLaunches launchpadID launchDate' launches.
Proof.
  intros Hfmt. induction launches as [|launch rest IH]; [done|].
  simpl. by rewrite Hfmt, IH.
Qed.

Lemma rotationWeekday_Date_of (t t' : Time) :
  Date_of t = Date_of t' → rotationWeekday t = rotationWeekday t'.
Proof.
  intros Hday. rewrite !rotationWeekday_absDays, !absDays_Date_of. by rewrite Hday.
Qed.

Lemma scheduleResult_rotationWeekday (rows : RowsResult) (destinationID : Z)
    (t t' : Time) :
  rotationWeekday t = rotationWeekday t' →
  scheduleResult rows destinationID t = scheduleResult rows destinationID t'.
Proof. intros H. unfold scheduleResult, rotationIndex. by rewrite H. Qed.

(** ** The rotation over the calendar *)

(** X4. Both checks read the launch date through its calendar day only:
    two launch dates that show the same year, month and day on their own
    wall clocks get the same answer from the site check and from the
    rotation check, and two requests that differ in nothing else, both with
    their dates present, the same outcome. *)
Theorem checks_read_calendar_day_only (launchDate launchDate' : Time) :
  Date_of launchDate = Date_of launchDate' →
  ∀ (destinationID : Z) (launchpadID : string) (w : World),
    CheckLaunchpadAvailability launchpadID launchDate w =
      CheckLaunchpadAvailability launchpadID launchDate' w ∧
    CheckDestinationSchedule destinationID launchpadID launchDate w =
      CheckDestinationSchedule destinationID launchpadID launchDate' w ∧
    (∀ booking,
       IsZero launchDate = false → IsZero launchDate' = false →
       IsZero (Birthday booking) = false →
       Validate (setLaunchDate booking launchDate) w =
         Validate (setLaunchDate booking launchDate') w ∧
       validateBooking (setLaunchDate booking launchDate) w =
         validateBooking (setLaunchDate booking launchDate') w).
Proof.
  intros Hday destinationID launchpadID w.
  assert (∀ lp, feedResult (spacex_feed w) lp launchDate =
                feedResult (spacex_feed w) lp launchDate') as Hfeed.
  { intros lp. unfold feedResult. destruct (spacex_feed w); try done.
    apply scanLaunches_Format_date. by apply Format_date_inj. }
  assert (∀ d, scheduleResult (destinations_rows w) d launchDate =
               scheduleResult (destinations_rows w) d launchDate') as Hsched.
  { intros d. by apply scheduleResult_rotationWeekday, rotationWeekday_Date_of. }
  split; [by rewrite !CheckLaunchpadAvailability_run, Hfeed|].
  split; [by rewrite !CheckDestinationSchedule_run, Hsched|].
  intros booking Hz Hz' Hb.
  rewrite !Validate_present, !validateBooking_present
    by (simpl; by apply IsZero_orb_false).
  simpl. by rewrite Hfeed, Hsched.
Qed.

Lemma checks_read_calendar_day_only_witness :
  CheckLaunchpadAvailability "test_launchpad" eveningTime
    (mockWorld (Decoded [testLaunch]) (Rows weekDestinations))
  = CheckLaunchpadAvailability "test_launchpad" testLaunchDate
      (mockWorld (Decoded [testLaunch]) (Rows weekDestinations)).
Proof.
  apply (checks_read_calendar_day_only eveningTime testLaunchDate);
    [vm_compute; reflexivity|exact 0].
Defined.

(** X5. The rotation moves on by one slot per calendar day and comes round
    after seven: a launch date [k] days after another has the slot
    [(slot + k) mod 7], so a week later the rotation check answers as
    before. *)
Theorem rotation_advances_daily (launchDate launchDate' : Time) (k : Z) :
  absDays launchDate' = absDays launchDate + k →
  rotationWeekday launchDate' = (rotationWeekday launchDate + k) mod 7 ∧
  (k mod 7 = 0 →
   ∀ (destinationID : Z) (launchpadID : string) (w : World),
     CheckDestinationSchedule destinationID launchpadID launchDate' w =
     CheckDestinationSchedule destinationID launchpadID launchDate w).
Proof.
  intros Hk.
  assert (rotationWeekday launchDate' = (rotationWeekday launchDate + k) mod 7)
    as Hslot.
  { rewrite !rotationWeekday_absDays, Hk.
    Z.to_euclidean_division_equations. lia. }
  split; [exact Hslot|].
  intros Hweek destinationID launchpadID w.
  rewrite !CheckDestinationSchedule_run. f_equal. f_equal.
  apply scheduleResult_rotationWeekday. rewrite Hslot.
  pose proof (rotationWeekday_range launchDate).
  Z.to_euclidean_division_equations. lia.
Qed.

Lemma rotation_advances_daily_witness :
  rotationWeekday (weekOfTest 6) = (rotationWeekday testLaunchDate + 1) mod 7.
Proof.
  apply (rotation_advances_daily testLaunchDate (weekOfTest 6) 1).
  vm_compute. reflexivity.
Defined.

(** X6. With more than seven destinations, those after the seventh are
    never the expected one: the index is a weekday, 0 to 6.  Identifiers
    being distinct (they are a primary key), a request for such a
    destination fails the rotation check on every launch date. *)
Theorem destinations_after_seventh_never_expected
    (destinationIDs : list Z) (i : nat) (destinationID : Z)
    (launchpadID : string) (launchDate : Time) (w : World) :
  NoDup destinationIDs →
  destinations_rows w = Rows destinationIDs →
  destinationIDs !! i = Some destinationID →
  (7 ≤ i)%nat →
  CheckDestinationSchedule destinationID launchpadID launchDate w =
  (Done (false, None), [CallQueryDestinations]).
Proof.
  intros Hnodup Hrows Hi Hseven.
  assert (destinationIDs ≠ []) as Hne by (by destruct destinationIDs).
  destruct (CheckDestinationSchedule_nonempty destinationID launchpadID launchDate
              w destinationIDs Hrows Hne) as (expected & Hlook & ->).
  rewrite bool_decide_eq_false_2; [done|].
  intros ->.
  pose proof (NoDup_lookup _ _ _ _ Hnodup Hi Hlook) as Hsame.
  pose proof (rotationWeekday_range launchDate) as Hw.
  pose proof (lookup_lt_Some _ _ _ Hi) as Hlen.
  unfold rotationIndex in Hsame.
  rewrite Z.rem_mod_nonneg in Hsame by lia.
  rewrite Z.mod_small in Hsame by lia. lia.
Qed.

Lemma destinations_after_seventh_never_expected_witness :
  CheckDestinationSchedule 8 "test_launchpad" testLaunchDate
    (mockWorld (Decoded []) (Rows (weekDestinations ++ [8])))
  = (Done (false, None), [CallQueryDestinations]).
Proof.
  apply (destinations_after_seventh_never_expected (weekDestinations ++ [8]) 7).
  - apply NoDup_ListNoDup. repeat constructor; simpl; intuition lia.
  - reflexivity.
  - reflexivity.
  - lia.
Defined.

(** X7. Each of the first seven destinations has its day: the destination
    at index [i], [i] below seven, passes the rotation check on every launch
    date whose weekday counted from Monday is [i], and such dates exist, for
    instance the days from Monday 2049-12-20 on. *)
Theorem first_seven_destinations_have_a_day
    (destinationIDs : list Z) (i : nat) (destinationID : Z)
    (launchpadID : string) (w : World) :
  destinations_rows w = Rows destinationIDs →
  destinationIDs !! i = Some destinationID →
  (i < 7)%nat →
  (∀ launchDate,
     rotationWeekday launchDate = Z.of_nat i →
     CheckDestinationSchedule destinationID launchpadID launchDate w =
     (Done (true, None), [CallQueryDestinations])) ∧
  rotationWeekday (weekOfTest (Z.of_nat i)) = Z.of_nat i ∧
  Date_of (weekOfTest (Z.of_nat i)) = (2049, 12, 20 + Z.of_nat i).
Proof.
  intros Hrows Hi Hseven. split; [|split].
  - intros launchDate Hslot.
    assert (destinationIDs ≠ []) as Hne by (by destruct destinationIDs).
    destruct (CheckDestinationSchedule_nonempty destinationID launchpadID launchDate
                w destinationIDs Hrows Hne) as (expected & Hlook & ->).
    pose proof (lookup_lt_Some _ _ _ Hi) as Hlen.
    unfold rotationIndex in Hlook. rewrite Hslot in Hlook.
    rewrite Z.rem_mod_nonneg in Hlook by lia.
    rewrite Z.mod_small, Nat2Z.id in Hlook by lia.
    rewrite Hi in Hlook. injection Hlook as <-.
    by rewrite bool_decide_eq_true_2.
  - assert (i = 0 ∨ i = 1 ∨ i = 2 ∨ i = 3 ∨ i = 4 ∨ i = 5 ∨ i = 6)%nat
      as Hcases by lia.
    repeat (destruct Hcases as [-> | Hcases]); try subst i; reflexivity.
  - assert (i = 0 ∨ i = 1 ∨ i = 2 ∨ i = 3 ∨ i = 4 ∨ i = 5 ∨ i = 6)%nat
      as Hcases by lia.
    repeat (destruct Hcases as [-> | Hcases]); try subst i; reflexivity.
Qed.

Lemma first_seven_destinations_have_a_day_witness :
  CheckDestinationSchedule 3 "test_launchpad" (weekOfTest 2)
    (mockWorld (Decoded []) (Rows weekDestinations))
  = (Done (true, None), [CallQueryDestinations]).
Proof.
  destruct (first_seven_destinations_have_a_day weekDestinations 2 3
              "test_launchpad" (mockWorld (Decoded []) (Rows weekDestinations)))
    as (Hday & Hslot & _); [reflexivity|reflexivity|lia|].
  apply Hday. exact Hslot.
Defined.

Lemma CreateBookingHandler_accepted (booking : Booking) (w : World)
    (calls : list Call) :
  validateBooking booking w = (Done (true, None), calls) →
  CreateBookingHandler (Some booking) w =
  (Done match bookings_insert w booking with
        | inl _ => http_Error "Internal Server Error" StatusInternalServerError
        | inr id => mkResponse StatusCreated (BookingJSON (setID booking id))
        end,
   calls ++ [CallInsertBooking booking]).
Proof.
  intros H. unfold CreateBookingHandler, mbind, IO_mbind, IO_bind.
  rewrite H. simpl. unfold CreateBooking, mbind, IO_mbind, IO_bind, db_QueryRow_insert.
  by destruct (bookings_insert w booking).
Qed.

(** ** The booking handler *)

(** X8. What [validateBooking] asks of the outside, and when: nothing for
    a request without its dates; otherwise the feed, once; and the
    destination store, once and after the feed, exactly when both dates are
    present and the site check found the pad free. *)
Theorem validateBooking_calls (booking : Booking) (w : World) :
  let calls := (validateBooking booking w).2 in
  (calls = [] ∨ calls = [CallHttpGet] ∨ calls = [CallHttpGet; CallQueryDestinations]) ∧
  (calls = [] ↔
   IsZero (LaunchDate booking) = true ∨ IsZero (Birthday booking) = true) ∧
  (CallQueryDestinations ∈ calls ↔
   IsZero (LaunchDate booking) = false ∧ IsZero (Birthday booking) = false ∧
   (CheckLaunchpadAvailability (LaunchpadID booking) (LaunchDate booking) w).1
     = Done (true, None)).
Proof.
  cbv zeta. rewrite CheckLaunchpadAvailability_run. simpl.
  destruct (IsZero (LaunchDate booking) || IsZero (Birthday booking)) eqn:Hz.
  - rewrite validateBooking_zero by done. simpl.
    apply orb_true_iff in Hz.
    split; [by left|]. split; [by split|].
    split; [by intros ?%elem_of_nil|].
    intros (H1 & H2 & _). destruct Hz; congruence.
  - rewrite validateBooking_present by done.
    apply orb_false_iff in Hz as [Hz1 Hz2].
    assert (¬ (IsZero (LaunchDate booking) = true ∨ IsZero (Birthday booking) = true))
      as Hnz by (intros [?|?]; congruence).
    assert (CallQueryDestinations ∉ [CallHttpGet]) as Hnot.
    { intros Hin. apply list_elem_of_singleton in Hin. discriminate. }
    assert (CallQueryDestinations ∈ [CallHttpGet; CallQueryDestinations]) as Hin.
    { apply elem_of_cons. right. apply list_elem_of_here. }
    destruct (feedResult _ _ _) as [[|] [err|]]; simpl.
    + split; [by right; left|]. split; [by split|]. split; [done|].
      by intros (_ & _ & [=]).
    + destruct (scheduleResult _ _ _) as [[|] [err|]]; simpl;
        (split; [by right; right|]); (split; [by split|]); by split.
    + split; [by right; left|]. split; [by split|]. split; [done|].
      by intros (_ & _ & [=]).
    + split; [by right; left|]. split; [by split|]. split; [done|].
      by intros (_ & _ & [=]).
Qed.

Lemma validateBooking_calls_witness :
  CallQueryDestinations ∈
    (validateBooking testBooking (mockWorld (Decoded []) (Rows weekDestinations))).2.
Proof.
  apply (validateBooking_calls testBooking
           (mockWorld (Decoded []) (Rows weekDestinations))).
  repeat split; vm_compute; reflexivity.
Defined.

(** X9. The handler writes to the booking store only what was accepted: a
    booking is inserted only if it is the decoded request and [Validate]
    accepted it, after the two reads and as the last call; the handler's
    calls are those of the validation, followed by the insert exactly when
    the request was accepted.  A body that does not decode causes no call
    at all. *)
Theorem handler_inserts_only_accepted (decoded : option Booking) (w : World) :
  (∀ inserted,
     CallInsertBooking inserted ∈ (CreateBookingHandler decoded w).2 →
     decoded = Some inserted ∧
     (Validate inserted w).1 = Done Accepted ∧
     (CreateBookingHandler decoded w).2 =
       [CallHttpGet; CallQueryDestinations; CallInsertBooking inserted]) ∧
  (∀ booking,
     decoded = Some booking →
     (CreateBookingHandler decoded w).2 =
     (validateBooking booking w).2 ++
     match (Validate booking w).1 with
     | Done Accepted => [CallInsertBooking booking]
     | _ => []
     end) ∧
  (decoded = None → (CreateBookingHandler decoded w).2 = []).
Proof.
  assert (∀ booking,
            (CreateBookingHandler (Some booking) w).2 =
            (validateBooking booking w).2 ++
            match (Validate booking w).1 with
            | Done Accepted => [CallInsertBooking booking]
            | _ => []
            end ∧
            ((Validate booking w).1 = Done Accepted →
             (validateBooking booking w).2 = [CallHttpGet; CallQueryDestinations]) ∧
            (∀ c, c ∈ (validateBooking booking w).2 →
                  c = CallHttpGet ∨ c = CallQueryDestinations)) as Hcalls.
  { intros booking.
    destruct (IsZero (LaunchDate booking) || IsZero (Birthday booking)) eqn:Hz.
    - rewrite (CreateBookingHandler_error _ _ _ _ _ (validateBooking_zero _ _ Hz)).
      rewrite Validate_zero, validateBooking_zero by done. simpl.
      split; [done|]. split; [done|]. by intros c ?%elem_of_nil.
    - pose proof (validateBooking_present booking w Hz) as Hv.
      rewrite Validate_present by done.
      destruct (feedResult _ _ _) as [[|] [err|]];
        [| destruct (scheduleResult _ _ _) as [[|] [err|]] | |];
        first [ rewrite (CreateBookingHandler_error _ _ _ _ _ Hv)
              | rewrite (CreateBookingHandler_invalid _ _ _ Hv)
              | rewrite (CreateBookingHandler_accepted _ _ _ Hv) ];
        rewrite Hv; simpl; rewrite ?app_nil_r;
        (split; [done|]); (split; [done|]);
        intros c Hc;
        repeat (apply elem_of_cons in Hc as [-> | Hc]; [tauto|]);
        by apply elem_of_nil in Hc. }
  split; [|split].
  - intros inserted Hin. destruct decoded as [booking|];
      [|by apply elem_of_nil in Hin].
    destruct (Hcalls booking) as (Heq & Hacc & Hval).
    rewrite Heq in Hin |- *. apply elem_of_app in Hin as [Hin | Hin].
    + apply Hval in Hin as [? | ?]; discriminate.
    + destruct (Validate booking w).1 as [[|r]|] eqn:HV;
        try (by apply elem_of_nil in Hin).
      apply list_elem_of_singleton in Hin. injection Hin as ->.
      split; [done|]. split; [done|]. by rewrite (Hacc eq_refl).
  - intros booking ->. apply Hcalls.
  - by intros ->.
Qed.

Lemma handler_inserts_only_accepted_witness :
  (CreateBookingHandler (Some testBooking)
     (mockWorld (Decoded [testLaunch]) (Rows weekDestinations))).2 = [CallHttpGet].
Proof.
  destruct (handler_inserts_only_accepted (Some testBooking)
              (mockWorld (Decoded [testLaunch]) (Rows weekDestinations)))
    as (_ & Hcalls & _).
  rewrite (Hcalls testBooking eq_refl). vm_compute. reflexivity.
Defined.

(** X10. The answers of the booking handler, by the outcome of the
    validation: 201 with the booking as sent, its [ID] alone replaced by the
    identifier the store assigned, when the request is accepted and the
    insert succeeds; 400 when the body does not decode, and, with another
    text, on a site conflict or a rotation mismatch; 500 on missing fields,
    on an upstream error and when the insert fails.  It never panics. *)
Theorem handler_responses (decoded : option Booking) (w : World) :
  (CreateBookingHandler decoded w).1 =
  Done match decoded with
       | None => http_Error "Invalid request payload" StatusBadRequest
       | Some booking =>
           match (Validate booking w).1 with
           | Done Accepted =>
               match bookings_insert w booking with
               | inr id =>
                   mkResponse StatusCreated
                     (BookingJSON
                        (mkBooking id (FirstName booking) (LastName booking)
                           (Gender booking) (Birthday booking)
                           (LaunchpadID booking) (DestinationID booking)
                           (LaunchDate booking)))
               | inl _ =>
                   http_Error "Internal Server Error" StatusInternalServerError
               end
           | Done (Rejected LaunchSiteConflict)
           | Done (Rejected DestinationRotationMismatch) =>
               http_Error "Flight is cancelled due to scheduling conflicts."
                          StatusBadRequest
           | _ => http_Error "Internal Server Error" StatusInternalServerError
           end
       end.
Proof.
  destruct decoded as [booking|]; [|done].
  destruct (IsZero (LaunchDate booking) || IsZero (Birthday booking)) eqn:Hz.
  - rewrite (CreateBookingHandler_error _ _ _ _ _ (validateBooking_zero _ _ Hz)).
    by rewrite Validate_zero.
  - pose proof (validateBooking_present booking w Hz) as Hv.
    rewrite Validate_present by done.
    destruct (feedResult _ _ _) as [[|] [err|]];
      [| destruct (scheduleResult _ _ _) as [[|] [err|]] | |];
      first [ rewrite (CreateBookingHandler_error _ _ _ _ _ Hv)
            | rewrite (CreateBookingHandler_invalid _ _ _ Hv)
            | rewrite (CreateBookingHandler_accepted _ _ _ Hv) ];
      reflexivity.
Qed.

Lemma dom_visitorAllow (ip : string) (now : Z) (visitors : gmap string Limiter) :
  dom (visitorAllow ip now visitors).2 = {[ip]} ∪ dom visitors.
Proof. rewrite visitorAllow_unfold. simpl. apply dom_insert_L. Qed.

(** A limiter in the registry was made by [getVisitor] and last drawn from
    by a request of its client. *)
Lemma admissions_stored (events : list (string * Z)) :
  ∀ (visitors : gmap string Limiter) (seen : list (string * Z)),
    (∀ ip0 lim, visitors !! ip0 = Some lim →
                limit lim = float64_of_int 1 ∧ burst lim = 3 ∧
                ∃ t, last lim = Reading t ∧ (ip0, t) ∈ seen) →
    ∀ ip0 lim, (admissions events visitors).2 !! ip0 = Some lim →
               limit lim = float64_of_int 1 ∧ burst lim = 3 ∧
               ∃ t, last lim = Reading t ∧ (ip0, t) ∈ seen ++ events.
Proof.
  induction events as [|[ip now] rest IH]; intros visitors seen Hinv ip0 lim Hlook.
  - simpl in Hlook. rewrite app_nil_r. by apply Hinv.
  - rewrite admissions_cons in Hlook. simpl in Hlook.
    rewrite (cons_middle (ip, now) seen rest), (assoc_L (++)).
    apply (IH (visitorAllow ip now visitors).2 (seen ++ [(ip, now)])); [|done].
    clear ip0 lim Hlook. intros ip0 lim Hlook.
    rewrite visitorAllow_unfold in Hlook. simpl in Hlook.
    destruct (decide (ip = ip0)) as [-> | Hne].
    + rewrite lookup_insert_eq in Hlook. injection Hlook as <-.
      unfold limiterOf. destruct (visitors !! ip0) as [lim0|] eqn:Hold;
        cbn [from_option id].
      * destruct (Hinv ip0 lim0 Hold) as (Hlimit & Hburst & t & Hlast & Hin).
        destruct (Allow lim0 now).1 eqn:Hok.
        -- destruct (Allow_passed lim0 now Hok) as (-> & -> & ->).
           split; [done|]. split; [done|]. exists now. split; [done|].
           apply elem_of_app. right. apply list_elem_of_here.
        -- rewrite (Allow_denied_unchanged _ _ Hok).
           split; [done|]. split; [done|]. exists t. split; [done|].
           apply elem_of_app. by left.
      * rewrite Allow_fresh. simpl.
        split; [done|]. split; [done|]. exists now. split; [done|].
        apply elem_of_app. right. apply list_elem_of_here.
    + rewrite lookup_insert_ne in Hlook by done.
      destruct (Hinv ip0 lim Hlook) as (Hlimit & Hburst & t & Hlast & Hin).
      split; [done|]. split; [done|]. exists t. split; [done|].
      apply elem_of_app. by left.
Qed.

Lemma size_list_to_set_length (l : list string) :
  (size (list_to_set l : gset string) ≤ length l)%nat.
Proof.
  induction l as [|x l IH]; [by rewrite list_to_set_nil, size_empty|].
  rewrite list_to_set_cons, size_union_alt, size_singleton. simpl.
  assert (size (list_to_set l ∖ {[x]} : gset string)
          ≤ size (list_to_set l : gset string))%nat
    by (apply subseteq_size; set_solver).
  lia.
Qed.

(** ** The limiter over time *)

(** X13. The registry only grows: a request adds the identity it comes
    from and removes none, whether it passes or not; after a run the
    registry holds what it held and the identities of the run, so that its
    size is at most the size before plus the number of requests. *)
Theorem registry_only_grows (events : list (string * Z))
    (visitors : gmap string Limiter) :
  dom (admissions events visitors).2 = dom visitors ∪ list_to_set (map fst events) ∧
  (∀ ip, is_Some (visitors !! ip) → is_Some ((admissions events visitors).2 !! ip)) ∧
  (size visitors ≤ size (admissions events visitors).2 ≤ size visitors + length events)%nat.
Proof.
  assert (dom (admissions events visitors).2
          = dom visitors ∪ list_to_set (map fst events)) as Hdom.
  { revert visitors. induction events as [|[ip now] rest IH]; intros visitors.
    - simpl. set_solver.
    - rewrite admissions_cons. simpl. rewrite IH, dom_visitorAllow. set_solver. }
  split; [exact Hdom|]. split.
  - intros ip Hip. apply elem_of_dom. rewrite Hdom. apply elem_of_union. left.
    by apply elem_of_dom.
  - rewrite <- !size_dom, Hdom. split.
    + apply subseteq_size. set_solver.
    + rewrite size_union_alt.
      assert (size (list_to_set (map fst events) ∖ dom visitors : gset string)
              ≤ length events)%nat; [|lia].
      etrans; [apply (subseteq_size _ (list_to_set (map fst events))); set_solver|].
      rewrite <- (length_map fst events). apply size_list_to_set_length.
Qed.

Lemma registry_only_grows_witness :
  is_Some ((admissions fourInARow {[clientB := NewLimiter (float64_of_int 1) 3]}).2
             !! clientB).
Proof.
  apply (registry_only_grows fourInARow
           {[clientB := NewLimiter (float64_of_int 1) 3]}).
  exists (NewLimiter (float64_of_int 1) 3). vm_compute. reflexivity.
Defined.

(** X14. What the registry stores: starting from an empty registry, every
    limiter in it has rate 1 and burst 3, and its [last] is the clock
    reading of a request of its client in the run. *)
Theorem stored_limiters_invariant (history : list (string * Z))
    (ip : string) (lim : Limiter) :
  (admissions history ∅).2 !! ip = Some lim →
  limit lim = float64_of_int 1 ∧ burst lim = 3 ∧
  ∃ t, last lim = Reading t ∧ (ip, t) ∈ history.
Proof.
  intros Hlook.
  apply (admissions_stored history ∅ []); [|done].
  intros ip0 lim0 Hnone. by rewrite lookup_empty in Hnone.
Qed.

Lemma stored_limiters_invariant_witness :
  ∃ t, last (mkLimiter (float64_of_int 1) 3 (float64_of_int 0) (Reading (5 * Second)))
       = Reading t ∧ (clientA, t) ∈ threeAtOnce.
Proof.
  apply (stored_limiters_invariant threeAtOnce clientA
           (mkLimiter (float64_of_int 1) 3 (float64_of_int 0) (Reading (5 * Second)))).
  vm_compute. reflexivity.
Defined.

(** X15. The limiter shields what lies behind it: whatever handler the
    middleware wraps, a request that is turned away is answered 429 without
    the handler being run, so without any call to the outside, and leaves
    the registry as it was; a request that is let through is answered by
    the handler. *)
Theorem middleware_shields_upstream (next : Request → IO Response)
    (now : Z) (r : Request) (visitors : gmap string Limiter) :
  ((visitorAllow (RemoteAddr r) now visitors).1 = false →
   (∀ w, (rateLimitMiddleware next now r visitors).1 w =
           (Done (http_Error "Too Many Requests" StatusTooManyRequests), [])) ∧
   (rateLimitMiddleware next now r visitors).2 = visitors) ∧
  ((visitorAllow (RemoteAddr r) now visitors).1 = true →
   (rateLimitMiddleware next now r visitors).1 = next r).
Proof.
  rewrite rateLimitMiddleware_visitorAllow. simpl. split.
  - intros Hno. rewrite Hno. split; [reflexivity|]. by apply visitorAllow_denied.
  - by intros ->.
Qed.

Lemma middleware_shields_upstream_witness :
  (rateLimitMiddleware serveBooking (5 * Second)
     (mkRequest clientA (Some testBooking)) (admissions threeAtOnce ∅).2).1
    (mockWorld (Decoded []) (Rows weekDestinations))
  = (Done (http_Error "Too Many Requests" StatusTooManyRequests), []).
Proof.
  destruct (middleware_shields_upstream serveBooking (5 * Second)
              (mkRequest clientA (Some testBooking)) (admissions threeAtOnce ∅).2)
    as [Hdenied _].
  apply Hdenied. vm_compute. reflexivity.
Defined.

(** ** The rest of the service *)

(** X16. [Health] reports a database that is up or does not return: when
    the ping fails the process is ended, so that no map with status "down"
    or with an "error" entry is ever returned.  A returned map has status
    "up", the seven counters in decimal, and one message, decided by the
    last of the four conditions that holds, in the order: more than 100 open
    connections, more than 1000 waits, more connections closed idle than
    half the open ones, more closed by lifetime than half the open ones;
    "It's healthy" when none holds. *)
Theorem Health_reports_up_or_exits (Duration_String : Z → string)
    (ping : option error) (dbStats : DBStats) :
  (∀ err, ping = Some err →
     Health Duration_String ping dbStats = Fatal ("db down: " +:+ error_Error err)) ∧
  (ping = None →
   ∃ stats,
     Health Duration_String ping dbStats = Returns stats ∧
     stats !! "status" = Some "up"%string ∧
     stats !! "error" = None ∧
     stats !! "message" =
       Some (if Z.quot (OpenConnections dbStats) 2 <? MaxLifetimeClosed dbStats
             then messageLifetimeClosed
             else if Z.quot (OpenConnections dbStats) 2 <? MaxIdleClosed dbStats
             then messageIdleClosed
             else if 1000 <? WaitCount dbStats then messageWaitEvents
             else if 100 <? OpenConnections dbStats then messageHeavyLoad
             else messageHealthy) ∧
     stats !! "open_connections" = Some (pretty (OpenConnections dbStats)) ∧
     stats !! "in_use" = Some (pretty (InUse dbStats)) ∧
     stats !! "idle" = Some (pretty (Idle dbStats)) ∧
     stats !! "wait_count" = Some (pretty (WaitCount dbStats)) ∧
     stats !! "wait_duration" = Some (Duration_String (WaitDuration dbStats)) ∧
     stats !! "max_idle_closed" = Some (pretty (MaxIdleClosed dbStats)) ∧
     stats !! "max_lifetime_closed" = Some (pretty (MaxLifetimeClosed dbStats)) ∧
     size stats = 9%nat ∧
     healthHandler Duration_String ping dbStats = Returns (StatusOK, stats)).
Proof.
  split; [by intros err ->|].
  intros ->. eexists. split; [reflexivity|].
  unfold healthHandler, Health.
  destruct (100 <? OpenConnections dbStats),
    (1000 <? WaitCount dbStats),
    (Z.quot (OpenConnections dbStats) 2 <? MaxIdleClosed dbStats),
    (Z.quot (OpenConnections dbStats) 2 <? MaxLifetimeClosed dbStats);
    repeat split; try (by simplify_map_eq);
    rewrite <- size_dom, ?dom_insert_L, dom_empty_L;
    by vm_compute.
Qed.

Lemma Health_reports_up_or_exits_witness :
  ∃ stats,
    Health (λ _, "0s"%string) None idlePool = Returns stats ∧
    stats !! "message" = Some messageIdleClosed.
Proof.
  destruct (Health_reports_up_or_exits (λ _, "0s"%string) None idlePool)
    as [_ Hup].
  destruct (Hup eq_refl) as (stats & Hrun & _ & _ & Hmsg & _).
  exists stats. split; [exact Hrun|exact Hmsg].
Defined.

Lemma scanBookings_all (bookings : list Booking) :
  ∀ acc, scanBookings (map inr bookings) acc =
         (match acc, bookings with
          | nil_slice, [] => nil_slice
          | nil_slice, _ => slice_of bookings
          | slice_of elems, _ => slice_of (elems ++ bookings)
          end, None).
Proof.
  induction bookings as [|b rest IH]; intros acc.
  - destruct acc; [done|]. by rewrite app_nil_r.
  - simpl. rewrite IH. destruct acc; simpl.
    + by destruct rest.
    + by rewrite <- (assoc_L (++)).
Qed.

Lemma scanBookings_error (bookings : list Booking) (err : error)
    (rest : list (error + Booking)) :
  ∀ acc, scanBookings (map inr bookings ++ inl err :: rest) acc = (nil_slice, Some err).
Proof. induction bookings as [|b more IH]; intros acc; [done|]. simpl. apply IH. Qed.

(** X17. [GetAllBookings] gives all the rows or none.  When every row
    scans, the bookings come back in the order of the rows, with no error,
    whatever [rows.Err] holds, which is never read: an iteration that broke
    off is answered like a complete one, 200 with the rows read so far; no
    rows at all give the [nil] slice.  When a row does not scan, the rows
    read before it are dropped: [nil] and that error, answered 500 like a
    failed query. *)
Theorem GetAllBookings_all_or_nothing (bookings : list Booking) :
  (∀ iterErr,
     GetAllBookings (BookingsCursor (map inr bookings) iterErr)
       = (sliceOfList bookings, None) ∧
     GetAllBookingsHandler (BookingsCursor (map inr bookings) iterErr)
       = (StatusOK, BookingsJSON (sliceOfList bookings))) ∧
  (∀ err rest iterErr,
     GetAllBookings (BookingsCursor (map inr bookings ++ inl err :: rest) iterErr)
       = (nil_slice, Some err) ∧
     GetAllBookingsHandler (BookingsCursor (map inr bookings ++ inl err :: rest) iterErr)
       = GetAllBookingsHandler (BookingsQueryFailed err) ∧
     GetAllBookingsHandler (BookingsQueryFailed err)
       = (StatusInternalServerError, BookingsText "Internal Server Error")).
Proof.
  split.
  - intros iterErr. unfold GetAllBookingsHandler, GetAllBookings.
    rewrite scanBookings_all. by destruct bookings.
  - intros err rest iterErr. unfold GetAllBookingsHandler, GetAllBookings.
    by rewrite scanBookings_error.
Qed.

(** X18. [New] keeps one instance: once a call has returned, every later
    call returns the same instance and opens nothing, whatever the settings
    are by then; a call opens at most one connection, with the driver "pgx"
    and the connection string made of the six settings; and a call that
    cannot open one does not return. *)
Theorem New_single_instance {DB : Type} (sql_Open : string → string → error + DB)
    (cfg : Config) (dbInstance : option (service DB)) :
  (∀ instance dbInstance' opened,
     New sql_Open cfg dbInstance = (Returns (instance, dbInstance'), opened) →
     dbInstance' = Some instance ∧
     (∀ previous, dbInstance = Some previous → instance = previous ∧ opened = []) ∧
     (dbInstance = None →
        sql_Open "pgx"%string (connStr cfg) = inr (db instance) ∧
        opened = [connStr cfg]) ∧
     ∀ cfg', New sql_Open cfg' dbInstance' = (Returns (instance, dbInstance'), [])) ∧
  (∀ logged opened,
     New sql_Open cfg dbInstance = (Fatal logged, opened) →
     dbInstance = None ∧ opened = [connStr cfg] ∧
     ∃ err, sql_Open "pgx"%string (connStr cfg) = inl err ∧ logged = error_Error err).
Proof.
  unfold New. split.
  - intros instance dbInstance' opened Hnew.
    destruct dbInstance as [previous|].
    + injection Hnew as <- <- <-.
      split; [done|]. split; [by intros ? [= ->]|]. split; done.
    + destruct (sql_Open "pgx"%string (connStr cfg)) as [err|handle] eqn:Hopen; [done|].
      injection Hnew as <- <- <-.
      split; [done|]. split; [done|]. split; done.
  - intros logged opened Hnew. destruct dbInstance as [previous|]; [done|].
    destruct (sql_Open "pgx"%string (connStr cfg)) as [err|handle] eqn:Hopen; [|done].
    injection Hnew as <- <-. repeat split; eauto.
Qed.

Lemma New_single_instance_witness :
  New (λ _ _, inr ()) localConfig (Some (mkService ()))
  = (Returns (mkService (), Some (mkService ())), []).
Proof.
  destruct (New_single_instance (DB := ()) (λ _ _, inr ()) localConfig None)
    as [Hreturns _].
  destruct (Hreturns (mkService ()) (Some (mkService ())) [connStr localConfig]
              eq_refl) as (_ & _ & _ & Hagain).
  apply Hagain.
Defined.

(** X19. Of a booking, validation reads the launch date, the launch pad,
    the destination, and whether a birthday is there: two bookings that
    agree on these get the same verdict, after the same calls, whatever
    names, gender, identifier and day of birth they carry. *)
Theorem validateBooking_fields_read (booking booking' : Booking) :
  LaunchDate booking = LaunchDate booking' →
  LaunchpadID booking = LaunchpadID booking' →
  DestinationID booking = DestinationID booking' →
  IsZero (Birthday booking) = IsZero (Birthday booking') →
  ∀ w, validateBooking booking w = validateBooking booking' w ∧
       Validate booking w = Validate booking' w.
Proof.
  intros Hdate Hpad Hdest Hbirth w.
  unfold validateBooking, Validate. by rewrite Hdate, Hpad, Hdest, Hbirth.
Qed.

Lemma validateBooking_fields_read_witness :
  validateBooking (setID testBooking 7)
      (mockWorld (Decoded [testLaunch]) (Rows weekDestinations))
  = validateBooking testBooking
      (mockWorld (Decoded [testLaunch]) (Rows weekDestinations)).
Proof.
  apply (validateBooking_fields_read (setID testBooking 7) testBooking);
    reflexivity.
Defined.
